(** * Oscilloscope trainer: instrument state, control dispatcher, probe and
      tutorial state machines, and the screen's signal model

    A shallow embedding of [src/main.js].  The module-level variables of the
    script ([oscState], [probeGrabbed], [frozenImageData], [wavePhase], the
    probe's position and the canvas content) are gathered in one record,
    [world], which every function threads explicitly.  Presentation-only
    effects (button textures, mesh colours and visibility, the knob rotation,
    the highlight ring, the toast countdown, the mouse cursor) are left out;
    toasts and audio cues are kept as an append-only log.

    JavaScript Numbers that the script only uses as integers (the three table
    indices, the step index, [extra.dir]) are modelled by [Z]; this is exact as
    long as the values stay safe integers (magnitude below 2^53).  Numbers that
    feed the drawing code are idealised as real numbers. *)

From Stdlib Require Import ZArith List String Ascii Bool Lia QArith Reals Lra.
Import ListNotations.

Local Open Scope string_scope.
Local Open Scope Z_scope.

(* ------------------------------------------------------------------------- *)
(** ** JavaScript helpers *)

Module JS.

(** [a % b]: the remainder takes the sign of the dividend. *)
Definition rem (a b : Z) : Z := Z.rem a b.

(** [arr[i]]: [undefined] (here [None]) outside [0, arr.length). *)
Definition index {A : Type} (arr : list A) (i : Z) : option A :=
  if i <? 0 then None else nth_error arr (Z.to_nat i).

(** [arr.length] *)
Definition length {A : Type} (arr : list A) : Z := Z.of_nat (List.length arr).

(** [x ?? d] *)
Definition nullish {A : Type} (x : option A) (d : A) : A :=
  match x with Some v => v | None => d end.

(** [Number.MAX_SAFE_INTEGER] *)
Definition MAX_SAFE_INTEGER : Z := 2 ^ 53 - 1.

Definition upper (c : ascii) : ascii :=
  let n := nat_of_ascii c in
  if (97 <=? n)%nat && (n <=? 122)%nat then ascii_of_nat (n - 32) else c.

(** [s.charAt(0).toUpperCase() + s.slice(1)], on strings of ASCII letters. *)
Definition capitalize (s : string) : string :=
  match s with
  | EmptyString => EmptyString
  | String c rest => String (upper c) rest
  end.

(** [Math.sign] on the reals. *)
Definition sign (x : R) : R :=
  if Rlt_dec 0 x then 1%R else if Rlt_dec x 0 then (-1)%R else 0%R.

End JS.

(* ------------------------------------------------------------------------- *)
(** ** Oscilloscope state *)

(** An entry of a value table: the rational it denotes and the text
    JavaScript prints for that literal in a template string. *)
Record number : Type := Num { shown : string; value : Q }.

Definition TIMEBASE_VALUES : list number :=
  [ Num "0.1" (1 # 10); Num "0.2" (2 # 10); Num "0.5" (5 # 10); Num "1" 1;
    Num "2" 2; Num "5" 5; Num "10" 10; Num "20" 20 ]%Q.

Definition VDIV_VALUES : list number :=
  [ Num "0.1" (1 # 10); Num "0.2" (2 # 10); Num "0.5" (5 # 10); Num "1" 1;
    Num "2" 2; Num "5" 5 ]%Q.

Definition TRIGGER_VALUES : list number :=
  [ Num "-3" (-3); Num "-2" (-2); Num "-1" (-1); Num "0" 0;
    Num "1" 1; Num "2" 2; Num "3" 3 ]%Q.

Record oscState : Type := OscState {
  power          : bool;
  probeConnected : bool;
  waveform       : option string;   (* [None] is [undefined] *)
  frequency      : Q;
  amplitude      : Q;
  timebaseIdx    : Z;
  vdivIdx        : Z;
  triggerIdx     : Z;
  isRunning      : bool;
  currentStep    : Z
}.

Definition oscState0 : oscState :=
  {| power := false; probeConnected := false; waveform := Some "sine";
     frequency := 1000%Q; amplitude := 3%Q;
     timebaseIdx := 3; vdivIdx := 3; triggerIdx := 3;
     isRunning := true; currentStep := 0 |}.

Definition set_power (b : bool) (s : oscState) : oscState :=
  OscState b (probeConnected s) (waveform s) (frequency s) (amplitude s)
           (timebaseIdx s) (vdivIdx s) (triggerIdx s) (isRunning s) (currentStep s).
Definition set_probeConnected (b : bool) (s : oscState) : oscState :=
  OscState (power s) b (waveform s) (frequency s) (amplitude s)
           (timebaseIdx s) (vdivIdx s) (triggerIdx s) (isRunning s) (currentStep s).
Definition set_waveform (v : option string) (s : oscState) : oscState :=
  OscState (power s) (probeConnected s) v (frequency s) (amplitude s)
           (timebaseIdx s) (vdivIdx s) (triggerIdx s) (isRunning s) (currentStep s).
Definition set_timebaseIdx (i : Z) (s : oscState) : oscState :=
  OscState (power s) (probeConnected s) (waveform s) (frequency s) (amplitude s)
           i (vdivIdx s) (triggerIdx s) (isRunning s) (currentStep s).
Definition set_vdivIdx (i : Z) (s : oscState) : oscState :=
  OscState (power s) (probeConnected s) (waveform s) (frequency s) (amplitude s)
           (timebaseIdx s) i (triggerIdx s) (isRunning s) (currentStep s).
Definition set_triggerIdx (i : Z) (s : oscState) : oscState :=
  OscState (power s) (probeConnected s) (waveform s) (frequency s) (amplitude s)
           (timebaseIdx s) (vdivIdx s) i (isRunning s) (currentStep s).
Definition set_isRunning (b : bool) (s : oscState) : oscState :=
  OscState (power s) (probeConnected s) (waveform s) (frequency s) (amplitude s)
           (timebaseIdx s) (vdivIdx s) (triggerIdx s) b (currentStep s).
Definition set_currentStep (i : Z) (s : oscState) : oscState :=
  OscState (power s) (probeConnected s) (waveform s) (frequency s) (amplitude s)
           (timebaseIdx s) (vdivIdx s) (triggerIdx s) (isRunning s) i.

(** Tutorial steps: [highlight] names the control the step waits for.  The
    long [desc] texts are only painted on the step cards and are omitted. *)
Record step : Type := Step { id : Z; title : string; highlight : string }.

Definition STEPS : list step :=
  [ Step 0 "Step 1 – Power On"      "power";
    Step 1 "Step 2 – Connect Probe" "ch1";
    Step 2 "Step 3 – Select Signal" "wave";
    Step 3 "Step 4 – Set Timebase"  "timebase";
    Step 4 "Step 5 – Set V/DIV"     "vdiv";
    Step 5 "Step 6 – Set Trigger"   "trigger";
    Step 6 "Step 7 – Run / Stop"    "runstop";
    Step 7 "Complete!"              "" ].

(* ------------------------------------------------------------------------- *)
(** ** Screen drawing: the live trace *)

Definition SCREEN_W : Z := 512.
Definition SCREEN_H : Z := 320.

(** The values [px] takes in [for (let px = 0; px <= W; px++)]. *)
Definition pixels : list Z := map Z.of_nat (seq 0 (Z.to_nat SCREEN_W + 1)).

Section Trace.
Local Open Scope R_scope.

(** [const t = (px / W) * Math.PI * 2 * periodsShown + phase] with the
    waveform parameters computed above the loop. *)
Definition sample_t (timebase frequency phase : R) (px : Z) : R :=
  let totalTimeMs := timebase * 10 in
  let periodMs := 1000 / frequency in
  let periodsShown := totalTimeMs / periodMs in
  (IZR px / IZR SCREEN_W) * PI * 2 * periodsShown + phase.

(** The three-way test on [oscState.waveform] that yields [norm]. *)
Definition sample_norm (wf : option string) (t : R) : R :=
  match wf with
  | Some w =>
      if String.eqb w "sine" then sin t
      else if String.eqb w "square" then JS.sign (sin t)
      else (2 / PI) * asin (sin t)
  | None => (2 / PI) * asin (sin t)
  end.

(** [ampScale = (H / 2) * (amplitude / (totalVoltage / 2))] *)
Definition ampScale (vdiv amp : R) : R :=
  let totalVoltage := vdiv * 8 in
  (IZR SCREEN_H / 2) * (amp / (totalVoltage / 2)).

(** The [(px, norm)] pairs of one sweep of the loop. *)
Definition trace_norms (wf : option string) (timebase frequency phase : R)
  : list (Z * R) :=
  map (fun px => (px, sample_norm wf (sample_t timebase frequency phase px)))
      pixels.

(** The points handed to [moveTo]/[lineTo]: [y = H / 2 - norm * ampScale]. *)
Definition trace_points (wf : option string)
           (timebase frequency vdiv amp phase : R) : list (Z * R) :=
  map (fun s => (fst s, IZR SCREEN_H / 2 - snd s * ampScale vdiv amp))
      (trace_norms wf timebase frequency phase).

(** [trigY = H / 2 - (trigDiv / 4) * (H / 2)] *)
Definition trigger_y (trigDiv : R) : R :=
  IZR SCREEN_H / 2 - (trigDiv / 4) * (IZR SCREEN_H / 2).
End Trace.

(** What a live sweep paints: the waveform path and the trigger line.  A table
    read outside its range gives [undefined] and the arithmetic on it [NaN];
    the canvas ignores such points, which [None] stands for.  The measurement
    text and the RUN badge are fixed decorations and not represented. *)
Record frame : Type := Frame {
  trace : option (list (Z * R));
  trigY : option R
}.

Definition liveFrame (s : oscState) (phase : R) : frame :=
  {| trace :=
       match JS.index TIMEBASE_VALUES (timebaseIdx s),
             JS.index VDIV_VALUES (vdivIdx s) with
       | Some timebase, Some vdiv =>
           Some (trace_points (waveform s) (Q2R (value timebase))
                              (Q2R (frequency s)) (Q2R (value vdiv))
                              (Q2R (amplitude s)) phase)
       | _, _ => None
       end;
     trigY := option_map (fun d => trigger_y (Q2R (value d)))
                         (JS.index TRIGGER_VALUES (triggerIdx s)) |}.

(** The content of the screen canvas after [drawScreen]. *)
Inductive display : Type :=
| Blank                    (* nothing drawn yet *)
| PowerOff                 (* "-- POWER OFF --" *)
| NoProbe                  (* flat line, "CH1: No probe connected" *)
| Frozen (f : frame)       (* stored image with the STOP badge on top *)
| Live (f : frame).        (* fresh sweep with the RUN badge *)

(* ------------------------------------------------------------------------- *)
(** ** The script's global state *)

(** Where [grabbableProbe.position] was last put. *)
Inductive probePosition : Type :=
| PROBE_REST     (* the probe's resting place beside the instrument *)
| AT_CH1         (* snapped into the BNC port *)
| ON_DRAG_PLANE. (* following the mouse on the front-face plane *)

(** Requests sent to the outside: toast texts and the click sound. *)
Inductive effect : Type :=
| Toast (text : string)
| ClickCue.

Record world : Type := World {
  osc             : oscState;
  probeGrabbed    : bool;
  probePos        : probePosition;
  frozenImageData : option frame;      (* [None] is [null] *)
  wavePhase       : R;
  screen          : display;
  emitted         : list effect        (* oldest first *)
}.

Definition world0 : world :=
  {| osc := oscState0; probeGrabbed := false; probePos := PROBE_REST;
     frozenImageData := None; wavePhase := 0%R; screen := Blank;
     emitted := [] |}.

Definition set_osc (s : oscState) (w : world) : world :=
  World s (probeGrabbed w) (probePos w) (frozenImageData w) (wavePhase w)
        (screen w) (emitted w).
Definition set_probeGrabbed (b : bool) (w : world) : world :=
  World (osc w) b (probePos w) (frozenImageData w) (wavePhase w)
        (screen w) (emitted w).
Definition set_probePos (p : probePosition) (w : world) : world :=
  World (osc w) (probeGrabbed w) p (frozenImageData w) (wavePhase w)
        (screen w) (emitted w).
Definition set_frozenImageData (f : option frame) (w : world) : world :=
  World (osc w) (probeGrabbed w) (probePos w) f (wavePhase w)
        (screen w) (emitted w).
Definition set_wavePhase (p : R) (w : world) : world :=
  World (osc w) (probeGrabbed w) (probePos w) (frozenImageData w) p
        (screen w) (emitted w).
Definition set_screen (d : display) (w : world) : world :=
  World (osc w) (probeGrabbed w) (probePos w) (frozenImageData w) (wavePhase w)
        d (emitted w).
Definition emit (e : effect) (w : world) : world :=
  World (osc w) (probeGrabbed w) (probePos w) (frozenImageData w) (wavePhase w)
        (screen w) (emitted w ++ [e]).

(** A statement either completes or throws; in both cases the assignments
    made so far stay in the globals. *)
Inductive outcome (A : Type) : Type :=
| Done (a : A) (w : world)
| Thrown (w : world).
Arguments Done {A} a w.
Arguments Thrown {A} w.

Definition M (A : Type) : Type := world -> outcome A.

Definition ret {A : Type} (a : A) : M A := fun w => Done a w.

Definition bind {A B : Type} (m : M A) (k : A -> M B) : M B :=
  fun w => match m w with
           | Done a w' => k a w'
           | Thrown w' => Thrown w'
           end.

Definition throw {A : Type} : M A := fun w => Thrown w.
Definition get : M world := fun w => Done w w.
Definition modify (f : world -> world) : M unit := fun w => Done tt (f w).
Definition modify_osc (f : oscState -> oscState) : M unit :=
  modify (fun w => set_osc (f (osc w)) w).

Declare Scope js_scope.
Delimit Scope js_scope with js.
Notation "x <- m ;; k" := (bind m (fun x => k))
  (at level 61, m at next level, right associativity) : js_scope.
Notation "m ;; k" := (bind m (fun _ => k))
  (at level 61, right associativity) : js_scope.
Local Open Scope js_scope.

(** The globals a statement leaves behind, thrown or not. *)
Definition final {A : Type} (o : outcome A) : world :=
  match o with Done _ w => w | Thrown w => w end.

Definition exec {A : Type} (m : M A) (w : world) : world := final (m w).

(* ------------------------------------------------------------------------- *)
(** ** Toast, audio, probe helpers, tutorial *)

Definition showToast (text : string) : M unit := modify (emit (Toast text)).

Definition playClick : M unit := modify (emit ClickCue).

Definition advanceStep (ctrlType : string) : M unit :=
  w <- get ;;
  let s := osc w in
  match JS.index STEPS (currentStep s) with
  | Some cur =>
      if String.eqb (highlight cur) ctrlType || (currentStep s =? 7) then
        if currentStep s <? JS.length STEPS - 1 then
          modify_osc (set_currentStep (currentStep s + 1))
        else ret tt
      else ret tt
  | None => ret tt
  end.

Definition snapProbeToCH1 : M unit :=
  modify (set_probeGrabbed false) ;;
  modify_osc (set_probeConnected true) ;;
  modify (set_probePos AT_CH1) ;;
  showToast "✔ Probe connected – CH1" ;;
  advanceStep "ch1" ;;
  playClick.

Definition unplugProbe : M unit :=
  modify_osc (set_probeConnected false) ;;
  modify (set_probeGrabbed false) ;;
  modify (set_probePos PROBE_REST) ;;
  showToast "Probe disconnected".

(* ------------------------------------------------------------------------- *)
(** ** Control dispatcher *)

(** The properties [handleControl] reads off its second argument; a missing
    property is [None]. *)
Record extra : Type := Extra { dir : option Z; wave : option string }.

Definition noExtra : extra := {| dir := None; wave := None |}.

(** The text printed for a table read in a template string. *)
Definition printed (v : option number) : string :=
  match v with Some n => shown n | None => "undefined" end.

(** [v >= 0] for a table read; [undefined >= 0] is false. *)
Definition nonneg (v : option number) : bool :=
  match v with Some n => Qle_bool 0 (value n) | None => false end.

(** One rotary step: [(idx + dir + table.length) % table.length]. *)
Definition turn (idx d len : Z) : Z := JS.rem (idx + d + len) len.

Definition handleControl (ctrlType : string) (ex : extra) : M unit :=
  if String.eqb ctrlType "power" then
    modify_osc (fun s => set_power (negb (power s)) s) ;;
    w <- get ;;
    showToast (if power (osc w) then "Power ON" else "Power OFF") ;;
    advanceStep "power"
  else if String.eqb ctrlType "probe_body" then
    w <- get ;;
    if probeConnected (osc w) then unplugProbe
    else
      modify (set_probeGrabbed (negb (probeGrabbed w))) ;;
      if negb (probeGrabbed w) then
        showToast "Probe grabbed – move to the CH1 port ▶"
      else
        modify (set_probePos PROBE_REST) ;;
        showToast "Probe released"
  else if String.eqb ctrlType "ch1" then
    w <- get ;;
    if probeConnected (osc w) then unplugProbe
    else if probeGrabbed w then snapProbeToCH1
    else showToast "Grab the probe first, then insert into CH1"
  else if String.eqb ctrlType "wave" then
    modify_osc (set_waveform (wave ex)) ;;
    match wave ex with
    | Some wf =>
        showToast ("Waveform: " ++ JS.capitalize wf) ;;
        advanceStep "wave"
    | None => throw   (* TypeError: [undefined.charAt] *)
    end
  else if String.eqb ctrlType "timebase" then
    let d := JS.nullish (dir ex) 1 in
    modify_osc (fun s =>
      set_timebaseIdx (turn (timebaseIdx s) d (JS.length TIMEBASE_VALUES)) s) ;;
    w <- get ;;
    showToast ("Timebase: "
               ++ printed (JS.index TIMEBASE_VALUES (timebaseIdx (osc w)))
               ++ " ms/div") ;;
    advanceStep "timebase"
  else if String.eqb ctrlType "vdiv" then
    let d := JS.nullish (dir ex) 1 in
    modify_osc (fun s =>
      set_vdivIdx (turn (vdivIdx s) d (JS.length VDIV_VALUES)) s) ;;
    w <- get ;;
    showToast ("V/DIV: "
               ++ printed (JS.index VDIV_VALUES (vdivIdx (osc w)))
               ++ " V") ;;
    advanceStep "vdiv"
  else if String.eqb ctrlType "trigger" then
    let d := JS.nullish (dir ex) 1 in
    modify_osc (fun s =>
      set_triggerIdx (turn (triggerIdx s) d (JS.length TRIGGER_VALUES)) s) ;;
    w <- get ;;
    let v := JS.index TRIGGER_VALUES (triggerIdx (osc w)) in
    showToast ("Trigger: " ++ (if nonneg v then "+" else "")
               ++ printed v ++ " div") ;;
    advanceStep "trigger"
  else if String.eqb ctrlType "runstop" then
    modify_osc (fun s => set_isRunning (negb (isRunning s)) s) ;;
    w <- get ;;
    (if isRunning (osc w) then modify (set_frozenImageData None) else ret tt) ;;
    showToast (if isRunning (osc w) then "Running..."
               else "STOPPED – waveform frozen") ;;
    advanceStep "runstop"
  else if String.eqb ctrlType "auto" then
    modify_osc (set_timebaseIdx 3) ;;
    modify_osc (set_vdivIdx 3) ;;
    modify_osc (set_triggerIdx 3) ;;
    modify_osc (set_isRunning true) ;;
    modify (set_frozenImageData None) ;;
    showToast "AUTO – settings reset to defaults"
  else ret tt.

(* ------------------------------------------------------------------------- *)
(** ** drawScreen *)

Definition drawScreen (phase : R) : M unit :=
  w <- get ;;
  let s := osc w in
  if negb (power s) then modify (set_screen PowerOff)
  else if negb (probeConnected s) then modify (set_screen NoProbe)
  else
    match negb (isRunning s), frozenImageData w with
    | true, Some img => modify (set_screen (Frozen img))
    | _, _ =>
        let f := liveFrame s phase in
        modify (set_screen (Live f)) ;;
        modify (set_frozenImageData (Some f))
    end.

(* ------------------------------------------------------------------------- *)
(** ** Input events and the frame callback *)

(** An entry of [interactives] as the ray cast returns it. *)
Record interactive : Type := Interactive {
  ctrlType : string;
  label    : string;
  waveTag  : option string     (* the [waveform] property of WAVE buttons *)
}.

Definition interactives : list interactive :=
  [ Interactive "power" "POWER" None;
    Interactive "runstop" "RUN/STOP" None;
    Interactive "auto" "AUTO" None;
    Interactive "wave" "WAVE:sine" (Some "sine");
    Interactive "wave" "WAVE:square" (Some "square");
    Interactive "wave" "WAVE:triangle" (Some "triangle");
    Interactive "timebase" "TIMEBASE" None;
    Interactive "vdiv" "V/DIV" None;
    Interactive "trigger" "TRIGGER" None;
    Interactive "ch1" "CH1 INPUT" None;
    Interactive "probe_body" "PROBE – click to grab" None ].

(** [handleControl(intr.ctrlType, intr)]: the descriptor itself is passed as
    [extra]; no descriptor has a [dir] property. *)
Definition asExtra (i : interactive) : extra :=
  {| dir := None; wave := waveTag i |}.

(** The window's click listener; [presenting] is [renderer.xr.isPresenting]
    and [hit] the result of [fireRayOnMeshes]. *)
Definition onClick (presenting : bool) (hit : option interactive) : M unit :=
  if presenting then ret tt
  else
    match hit with
    | Some intr => playClick ;; handleControl (ctrlType intr) (asExtra intr)
    | None =>
        w <- get ;;
        if probeGrabbed w then
          modify (set_probeGrabbed false) ;;
          modify (set_probePos PROBE_REST) ;;
          showToast "Probe released"
        else ret tt
    end.

Definition onXRSelect (hit : option interactive) : M unit :=
  match hit with
  | Some intr => playClick ;; handleControl (ctrlType intr) (asExtra intr)
  | None => ret tt
  end.

(** The state-changing part of [animate]: phase scroll, redraw, probe drag
    and auto-snap (the toast countdown, the highlight ring and the XR hover
    tooltips are left out).  [dt] is the clock delta, [onPlane] tells whether the mouse
    ray meets the drag plane and [near] is the outcome of the test
    [probeWorld.distanceTo(ch1World) < 0.072]. *)
Definition animate (dt : R) (presenting onPlane near : bool) : M unit :=
  w <- get ;;
  (if power (osc w) && isRunning (osc w) && probeConnected (osc w)
   then modify (set_wavePhase (wavePhase w + dt * 4)%R) else ret tt) ;;
  w <- get ;;
  drawScreen (wavePhase w) ;;
  if presenting then ret tt
  else
    w <- get ;;
    if probeGrabbed w && negb (probeConnected (osc w)) then
      (if onPlane then modify (set_probePos ON_DRAG_PLANE) else ret tt) ;;
      if near then snapProbeToCH1 else ret tt
    else ret tt.

Inductive event : Type :=
| Dispatch (ctrlType : string) (ex : extra)   (* a call of [handleControl] *)
| Click (presenting : bool) (hit : option interactive)
| XRSelect (hit : option interactive)
| AnimationFrame (dt : R) (presenting onPlane near : bool).

Definition handle (e : event) : M unit :=
  match e with
  | Dispatch c ex => handleControl c ex
  | Click p hit => onClick p hit
  | XRSelect hit => onXRSelect hit
  | AnimationFrame dt p onPlane near => animate dt p onPlane near
  end.

(** Events are handled one after the other on the single thread; a thrown
    error ends the handler and the next event finds the globals as they were
    left. *)
Fixpoint run (es : list event) (w : world) : world :=
  match es with
  | [] => w
  | e :: rest => run rest (exec (handle e) w)
  end.

(* ------------------------------------------------------------------------- *)
(** ** Vocabulary of the specification *)

(** The three rotary controls, with the index each one turns and the table
    that index points into. *)
Inductive rotary : Type := Timebase | Vdiv | Trigger.

Definition rotaryKind (r : rotary) : string :=
  match r with Timebase => "timebase" | Vdiv => "vdiv" | Trigger => "trigger" end.

Definition rotaryIdx (r : rotary) (s : oscState) : Z :=
  match r with
  | Timebase => timebaseIdx s
  | Vdiv => vdivIdx s
  | Trigger => triggerIdx s
  end.

Definition tableLength (r : rotary) : Z :=
  match r with
  | Timebase => JS.length TIMEBASE_VALUES
  | Vdiv => JS.length VDIV_VALUES
  | Trigger => JS.length TRIGGER_VALUES
  end.

(** [expectedControlKind] of step [s], when there is such a step. *)
Definition expectedControlKind (s : Z) : option string :=
  option_map highlight (JS.index STEPS s).

(** The step count [N]. *)
Definition stepCount : Z := JS.length STEPS.

(** The probe invariant: grabbed and connected are not both true. *)
Definition probe_ok (w : world) : Prop :=
  probeGrabbed w && probeConnected (osc w) = false.

(** Overwrite the power flag, everything else kept. *)
Definition with_power (b : bool) (w : world) : world :=
  set_osc (set_power b (osc w)) w.

(** The signal model in the words of the specification. *)
Inductive waveformKind : Type := Sine | Square | Triangle.

Definition kindName (k : waveformKind) : string :=
  match k with Sine => "sine" | Square => "square" | Triangle => "triangle" end.

Section SignalModelSpec.
Local Open Scope R_scope.

Definition sgn (x : R) : R :=
  match total_order_T x 0 with
  | inleft (left _) => -1
  | inleft (right _) => 0
  | inright _ => 1
  end.

Definition spec_periodsShown (timebaseMsPerDiv frequencyHz : R) : R :=
  (timebaseMsPerDiv * 10) / (1000 / frequencyHz).

Definition spec_angle (u periodsShown phase : R) : R :=
  u * (2 * PI) * periodsShown + phase.

Definition spec_shape (k : waveformKind) (angle : R) : R :=
  match k with
  | Sine => sin angle
  | Square => sgn (sin angle)
  | Triangle => (2 / PI) * asin (sin angle)
  end.

Definition spec_sample (k : waveformKind) (timebaseMsPerDiv frequencyHz phase u : R)
  : R :=
  spec_shape k
    (spec_angle u (spec_periodsShown timebaseMsPerDiv frequencyHz) phase).
End SignalModelSpec.

(** The step index [advanceStep] leaves behind, as a function of the index
    it finds. *)
Definition bumped (k : string) (s : Z) : Z :=
  match JS.index STEPS s with
  | Some cur =>
      if (String.eqb (highlight cur) k || (s =? 7)) && (s <? JS.length STEPS - 1)
      then s + 1 else s
  | None => s
  end.

(** [advanceStep] as a state update. *)
Definition bump (k : string) (w : world) : world :=
  set_osc (set_currentStep (bumped k (currentStep (osc w))) (osc w)) w.

(** The nine control kinds the dispatcher knows. *)
Definition knownKinds : list string :=
  [ "power"; "probe_body"; "ch1"; "wave"; "timebase"; "vdiv"; "trigger";
    "runstop"; "auto" ].

(** One handler moves the tutorial index forward by at most one and never
    past 7. *)
Definition step_le (w w' : world) : Prop :=
  currentStep (osc w) <= currentStep (osc w') <= currentStep (osc w) + 1
  /\ (currentStep (osc w) <= 7 -> currentStep (osc w') <= 7).

(** A state in which C10 applies, reached without any frame drawn: power on,
    grab the probe, plug it into CH1, press RUN/STOP. *)
Definition stoppedBeforeFirstFrame : world :=
  run [ Dispatch "power" noExtra; Dispatch "probe_body" noExtra;
        Dispatch "ch1" noExtra; Dispatch "runstop" noExtra ] world0.

(* ------------------------------------------------------------------------- *)
(** ** Further vocabulary: probe modes, panel events, settings in range *)

(** The three situations of the probe, read off the two flags. *)
Inductive probeMode : Type := Resting | Grabbed | Connected.

Definition probeModeOf (w : world) : probeMode :=
  if probeConnected (osc w) then Connected
  else if probeGrabbed w then Grabbed else Resting.

(** Where the probe has to be in each situation it is not carried in. *)
Definition probe_placed (w : world) : Prop :=
  (probeConnected (osc w) = true -> probePos w = AT_CH1)
  /\ (probeGrabbed w = false -> probeConnected (osc w) = false ->
      probePos w = PROBE_REST).

(** An event that comes through the scene: the ray cast only ever returns
    descriptors of [interactives] (or nothing), and a direct dispatch counts
    when it passes such a descriptor as the listeners do. *)
Definition panelHit (hit : option interactive) : Prop :=
  match hit with Some intr => In intr interactives | None => True end.

Definition panelEvent (e : event) : Prop :=
  match e with
  | Dispatch k ex =>
      exists intr, In intr interactives /\ k = ctrlType intr /\ ex = asExtra intr
  | Click _ hit => panelHit hit
  | XRSelect hit => panelHit hit
  | AnimationFrame _ _ _ _ => True
  end.

(** The parameters the registered controls pass: no [dir], and a waveform
    of one of the three kinds on WAVE. *)
Definition panelExtra (k : string) (ex : extra) : Prop :=
  dir ex = None
  /\ (k = "wave" ->
      wave ex = Some "sine" \/ wave ex = Some "square" \/ wave ex = Some "triangle").

(** All settings point into their tables and name a known waveform. *)
Definition settings_ok (s : oscState) : Prop :=
  0 <= timebaseIdx s < JS.length TIMEBASE_VALUES
  /\ 0 <= vdivIdx s < JS.length VDIV_VALUES
  /\ 0 <= triggerIdx s < JS.length TRIGGER_VALUES
  /\ (waveform s = Some "sine" \/ waveform s = Some "square"
      \/ waveform s = Some "triangle").

(** A click on the registered control of kind [k] (with the waveform tag of
    the WAVE buttons). *)
Definition press (k lbl : string) (wv : option string) : event :=
  Click false (Some (Interactive k lbl wv)).



Definition rotary_eqb (a b : rotary) : bool :=
  match a, b with
  | Timebase, Timebase | Vdiv, Vdiv | Trigger, Trigger => true
  | _, _ => false
  end.

(** An animation frame given by its clock delta and the three inputs of
    [animate]. *)
Definition frameOf (f : R * bool * bool * bool) : event :=
  let '(dt, presenting, onPlane, near) := f in
  AnimationFrame dt presenting onPlane near.

(* ------------------------------------------------------------------------- *)
(** ** Further parts of the script: toast countdown, ray-cast resolution,
       step cards, tutorial highlight *)







(** A scene object as the ray caster reports it: its identity, its parent's
    identity, and the control tag in its [userData] ([None] for the default
    empty [userData]). *)
Record object3d : Type := Object3d {
  uuid     : nat;
  parent   : option nat;
  userData : option interactive
}.

(** An entry of [interactives] together with the identity of its mesh. *)
Record registration : Type := Registration {
  mesh       : nat;
  descriptor : interactive
}.

(** [intr.mesh === hit || (hit.parent && intr.mesh === hit.parent)] *)
Definition meshMatches (intr : registration) (hit : object3d) : bool :=
  Nat.eqb (mesh intr) (uuid hit)
  || match parent hit with
     | Some p => Nat.eqb (mesh intr) p
     | None => false
     end.

(** The [for (const intr of interactives)] loop of [fireRayOnMeshes]. *)
Fixpoint findInteractive (regs : list registration) (hit : object3d)
  : option interactive :=
  match regs with
  | [] => None
  | intr :: rest =>
      if meshMatches intr hit then Some (descriptor intr)
      else findInteractive rest hit
  end.

(** [fireRayOnMeshes], given the objects of [raycaster.intersectObjects] in
    the order the ray caster returns them (nearest first). *)
Definition fireRayOnMeshes (regs : list registration) (hits : list object3d)
  : option interactive :=
  match hits with
  | [] => None
  | hit :: _ =>
      match findInteractive regs hit with
      | Some intr => Some intr
      | None =>
          match userData hit with
          | Some tag =>
              if negb (String.eqb (ctrlType tag) "") then Some tag else None
          | None => None
          end
      end
  end.

(** What [makeStepCard] paints in the number circle:
    [step.id < 7 ? step.id + 1 : "✓"]. *)
Inductive cardBadge : Type :=
| BadgeNumber (n : Z)
| BadgeCheck.

Record stepCard : Type := StepCard {
  cardStep : step;
  isActive : bool;
  badge    : cardBadge
}.

Definition makeStepCard (st : step) (active : bool) : stepCard :=
  {| cardStep := st; isActive := active;
     badge := if id st <? 7 then BadgeNumber (id st + 1) else BadgeCheck |}.

(** [stepCardMeshes.forEach((m, i) =>
       makeStepCard(STEPS[i], i === oscState.currentStep))], one mesh per
    step. *)
Fixpoint cardsFrom (i : Z) (steps : list step) (cur : Z) : list stepCard :=
  match steps with
  | [] => []
  | st :: rest => makeStepCard st (i =? cur) :: cardsFrom (i + 1) rest cur
  end.

Definition refreshStepCards (s : oscState) : list stepCard :=
  cardsFrom 0 STEPS (currentStep s).





(* ------------------------------------------------------------------------- *)
(** ** Basic facts *)

Lemma index_Some_range {A : Type} (arr : list A) (i : Z) (x : A) :
  JS.index arr i = Some x -> 0 <= i < JS.length arr.
Proof.
  unfold JS.index, JS.length. destruct (Z.ltb_spec i 0) as [Hneg | Hpos].
  - discriminate.
  - intros H. assert (Hlt : (Z.to_nat i < List.length arr)%nat).
    { apply nth_error_Some. rewrite H. discriminate. }
    lia.
Qed.

Lemma turn_in_range (idx d len : Z) :
  0 < len -> 0 <= idx + d + len ->
  turn idx d len = (idx + d) mod len /\ 0 <= turn idx d len < len.
Proof.
  intros Hlen Hsum. unfold turn, JS.rem.
  rewrite Z.rem_mod_nonneg by lia.
  replace (idx + d + len) with (idx + d + 1 * len) by ring.
  rewrite Z.mod_add by lia.
  split; [reflexivity | apply Z.mod_pos_bound; lia].
Qed.

Lemma sgn_sign (x : R) : JS.sign x = sgn x.
Proof.
  unfold JS.sign, sgn.
  destruct (total_order_T x 0) as [[Hlt | Heq] | Hgt];
    destruct (Rlt_dec 0 x) as [H1 | H1];
    destruct (Rlt_dec x 0) as [H2 | H2]; try reflexivity; lra.
Qed.

Lemma set_currentStep_same (s : oscState) : set_currentStep (currentStep s) s = s.
Proof. now destruct s. Qed.

Lemma set_osc_same (w : world) : set_osc (osc w) w = w.
Proof. now destruct w. Qed.

Lemma advanceStep_eq (k : string) (w : world) :
  advanceStep k w
  = Done tt (set_osc (set_currentStep (bumped k (currentStep (osc w))) (osc w)) w).
Proof.
  unfold advanceStep, bumped, bind, get.
  destruct (JS.index STEPS (currentStep (osc w))) as [cur |].
  - destruct (String.eqb (highlight cur) k || (currentStep (osc w) =? 7));
      cbn [andb];
      [ destruct (currentStep (osc w) <? JS.length STEPS - 1) |];
      cbn [ret modify_osc modify];
      now rewrite ?set_currentStep_same, ?set_osc_same.
  - cbn [ret]. now rewrite set_currentStep_same, set_osc_same.
Qed.

Lemma bumped_cases (k : string) (s : Z) :
  (bumped k s = s + 1 /\ expectedControlKind s = Some k /\ 0 <= s < 7)
  \/ (bumped k s = s /\ ~ (expectedControlKind s = Some k /\ s < 7)).
Proof.
  unfold bumped, expectedControlKind.
  destruct (JS.index STEPS s) as [cur |] eqn:E; cbn [option_map].
  - apply index_Some_range in E. change (JS.length STEPS) with 8 in *.
    destruct (String.eqb_spec (highlight cur) k) as [Hk | Hk];
      destruct (Z.eqb_spec s 7) as [H7 | H7];
      destruct (Z.ltb_spec s (8 - 1)) as [Hlt | Hge]; cbn [orb andb];
      first [ exfalso; lia
            | left; subst k; repeat split; first [reflexivity | lia]
            | right; split; [reflexivity |]; intros [Heq Hs];
              first [ lia | congruence ] ].
  - right. split; [reflexivity |]. intros [Heq _]. discriminate.
Qed.

Lemma advanceStep_bump (k : string) (w : world) :
  advanceStep k w = Done tt (bump k w).
Proof. apply advanceStep_eq. Qed.

Lemma advanceStep_then {B : Type} (k : string) (m : unit -> M B) (w : world) :
  bind (advanceStep k) m w = m tt (bump k w).
Proof. unfold bind. now rewrite advanceStep_bump. Qed.

Ltac js_eval :=
  unfold handleControl, snapProbeToCH1, unplugProbe, showToast, playClick;
  cbn -[advanceStep bumped JS.index turn String.append];
  rewrite ?advanceStep_then, ?advanceStep_bump;
  cbn -[advanceStep bumped JS.index turn String.append].

Lemma handleControl_power (ex : extra) (w : world) :
  handleControl "power" ex w
  = Done tt (bump "power"
      (emit (Toast (if negb (power (osc w)) then "Power ON" else "Power OFF"))
         (set_osc (set_power (negb (power (osc w))) (osc w)) w))).
Proof. js_eval. reflexivity. Qed.

Lemma handleControl_rotary_timebase (ex : extra) (w : world) :
  let i := turn (timebaseIdx (osc w)) (JS.nullish (dir ex) 1)
                (JS.length TIMEBASE_VALUES) in
  handleControl "timebase" ex w
  = Done tt (bump "timebase"
      (emit (Toast ("Timebase: " ++ printed (JS.index TIMEBASE_VALUES i)
                    ++ " ms/div"))
         (set_osc (set_timebaseIdx i (osc w)) w))).
Proof. js_eval. reflexivity. Qed.

Lemma handleControl_rotary_vdiv (ex : extra) (w : world) :
  let i := turn (vdivIdx (osc w)) (JS.nullish (dir ex) 1)
                (JS.length VDIV_VALUES) in
  handleControl "vdiv" ex w
  = Done tt (bump "vdiv"
      (emit (Toast ("V/DIV: " ++ printed (JS.index VDIV_VALUES i) ++ " V"))
         (set_osc (set_vdivIdx i (osc w)) w))).
Proof. js_eval. reflexivity. Qed.

Lemma handleControl_rotary_trigger (ex : extra) (w : world) :
  let i := turn (triggerIdx (osc w)) (JS.nullish (dir ex) 1)
                (JS.length TRIGGER_VALUES) in
  let v := JS.index TRIGGER_VALUES i in
  handleControl "trigger" ex w
  = Done tt (bump "trigger"
      (emit (Toast ("Trigger: " ++ (if nonneg v then "+" else "")
                    ++ printed v ++ " div"))
         (set_osc (set_triggerIdx i (osc w)) w))).
Proof. js_eval. reflexivity. Qed.

Lemma handleControl_auto (ex : extra) (w : world) :
  handleControl "auto" ex w
  = Done tt
      (emit (Toast "AUTO – settings reset to defaults")
         (set_frozenImageData None
            (set_osc (set_isRunning true
                        (set_triggerIdx 3
                           (set_vdivIdx 3 (set_timebaseIdx 3 (osc w))))) w))).
Proof. js_eval. reflexivity. Qed.

Lemma handleControl_probe_body (ex : extra) (w : world) :
  handleControl "probe_body" ex w
  = if probeConnected (osc w) then unplugProbe w
    else if probeGrabbed w then
      Done tt (emit (Toast "Probe released")
                 (set_probePos PROBE_REST (set_probeGrabbed false w)))
    else
      Done tt (emit (Toast "Probe grabbed – move to the CH1 port ▶")
                 (set_probeGrabbed true w)).
Proof.
  unfold handleControl.
  cbn -[unplugProbe]. destruct (probeConnected (osc w)); [reflexivity |].
  destruct (probeGrabbed w); reflexivity.
Qed.

Lemma handleControl_ch1 (ex : extra) (w : world) :
  handleControl "ch1" ex w
  = if probeConnected (osc w) then unplugProbe w
    else if probeGrabbed w then snapProbeToCH1 w
    else Done tt (emit (Toast "Grab the probe first, then insert into CH1") w).
Proof.
  unfold handleControl.
  cbn -[unplugProbe snapProbeToCH1]. destruct (probeConnected (osc w)); [reflexivity |].
  destruct (probeGrabbed w); reflexivity.
Qed.

Lemma snapProbeToCH1_eq (w : world) :
  snapProbeToCH1 w
  = Done tt (emit ClickCue
      (bump "ch1"
         (emit (Toast "✔ Probe connected – CH1")
            (set_probePos AT_CH1
               (set_osc (set_probeConnected true (osc w))
                        (set_probeGrabbed false w)))))).
Proof. js_eval. reflexivity. Qed.

Lemma handleControl_wave (ex : extra) (w : world) :
  handleControl "wave" ex w
  = match wave ex with
    | Some wf =>
        Done tt (bump "wave"
          (emit (Toast ("Waveform: " ++ JS.capitalize wf))
             (set_osc (set_waveform (Some wf) (osc w)) w)))
    | None => Thrown (set_osc (set_waveform None (osc w)) w)
    end.
Proof.
  unfold handleControl, showToast.
  cbn -[advanceStep bumped JS.index String.append JS.capitalize].
  destruct (wave ex) as [wf |];
    cbn -[advanceStep bumped JS.index String.append JS.capitalize];
    rewrite ?advanceStep_bump; reflexivity.
Qed.

Lemma handleControl_runstop (ex : extra) (w : world) :
  handleControl "runstop" ex w
  = let r := negb (isRunning (osc w)) in
    let w1 := set_osc (set_isRunning r (osc w)) w in
    let w2 := if r then set_frozenImageData None w1 else w1 in
    Done tt (bump "runstop"
      (emit (Toast (if r then "Running..." else "STOPPED – waveform frozen")) w2)).
Proof.
  unfold handleControl, showToast.
  cbn -[advanceStep bumped JS.index String.append].
  destruct (isRunning (osc w));
    cbn -[advanceStep bumped JS.index String.append];
    rewrite ?advanceStep_bump; reflexivity.
Qed.

Lemma handleControl_other (k : string) (ex : extra) (w : world) :
  ~ In k knownKinds -> handleControl k ex w = Done tt w.
Proof.
  intros Hk. unfold handleControl.
  repeat match goal with
  | |- context [String.eqb k ?c] =>
      destruct (String.eqb_spec k c) as [-> | _];
      [ exfalso; apply Hk; cbn; tauto |]
  end.
  reflexivity.
Qed.

Lemma kind_known_dec (k : string) : {In k knownKinds} + {~ In k knownKinds}.
Proof. apply in_dec, string_dec. Qed.

(** Case analysis on the control kind: one goal per known kind, each with the
    dispatcher replaced by what that branch does, and one for strangers. *)
Ltac by_kind k :=
  let Hk := fresh "Hk" in
  destruct (kind_known_dec k) as [Hk | Hk];
  [ cbn [In knownKinds] in Hk;
    repeat (destruct Hk as [<- | Hk]); [ .. | contradiction ];
    unfold exec;
    rewrite ?handleControl_power, ?handleControl_probe_body, ?handleControl_ch1,
      ?handleControl_wave, ?handleControl_rotary_timebase,
      ?handleControl_rotary_vdiv, ?handleControl_rotary_trigger,
      ?handleControl_runstop, ?handleControl_auto
  | unfold exec; rewrite (handleControl_other _ _ _ Hk) ].

Lemma drawScreen_touches (phase : R) (w : world) :
  exists d f,
    drawScreen phase w
    = Done tt (World (osc w) (probeGrabbed w) (probePos w) f (wavePhase w) d
                     (emitted w)).
Proof.
  unfold drawScreen. destruct w as [s g p f ph sc em]. cbn -[liveFrame].
  destruct (power s); cbn -[liveFrame]; [| eexists _, _; reflexivity].
  destruct (probeConnected s); cbn -[liveFrame]; [| eexists _, _; reflexivity].
  destruct (isRunning s), f; cbn -[liveFrame]; eexists _, _; reflexivity.
Qed.

(** *** The probe invariant is kept by every handler *)

Lemma unplugProbe_probe_ok (w : world) : probe_ok (final (unplugProbe w)).
Proof. reflexivity. Qed.

Lemma snapProbeToCH1_probe_ok (w : world) : probe_ok (final (snapProbeToCH1 w)).
Proof. rewrite snapProbeToCH1_eq. reflexivity. Qed.

Lemma handleControl_probe_ok (k : string) (ex : extra) (w : world) :
  probe_ok w -> probe_ok (exec (handleControl k ex) w).
Proof.
  intros Hw. by_kind k; try exact Hw.
  - (* probe_body *)
    destruct (probeConnected (osc w)) eqn:Ec; [apply unplugProbe_probe_ok |].
    destruct (probeGrabbed w); unfold probe_ok; cbn; now rewrite ?Ec.
  - (* ch1 *)
    destruct (probeConnected (osc w)); [apply unplugProbe_probe_ok |].
    destruct (probeGrabbed w); [apply snapProbeToCH1_probe_ok | exact Hw].
  - (* wave *)
    destruct (wave ex); exact Hw.
  - (* runstop *)
    destruct (isRunning (osc w)); exact Hw.
Qed.

Lemma playClick_then {B : Type} (m : unit -> M B) (w : world) :
  bind playClick m w = m tt (emit ClickCue w).
Proof. reflexivity. Qed.

Lemma animate_eq (dt : R) (presenting onPlane near : bool) (w : world) :
  animate dt presenting onPlane near w
  = let w1 := if power (osc w) && isRunning (osc w) && probeConnected (osc w)
              then set_wavePhase (wavePhase w + dt * 4)%R w else w in
    let w2 := exec (drawScreen (wavePhase w1)) w1 in
    if presenting then Done tt w2
    else if probeGrabbed w2 && negb (probeConnected (osc w2)) then
      let w3 := if onPlane then set_probePos ON_DRAG_PLANE w2 else w2 in
      if near then snapProbeToCH1 w3 else Done tt w3
    else Done tt w2.
Proof.
  destruct w as [s g p f0 ph sc em].
  unfold animate, exec, bind, get. cbv zeta. cbn [osc wavePhase].
  destruct (power s && isRunning s && probeConnected s);
    cbn -[drawScreen snapProbeToCH1];
    match goal with
    | |- context [drawScreen ?ph ?w1] =>
        destruct (drawScreen_touches ph w1) as (d & f & E); rewrite E
    end;
    cbn -[drawScreen snapProbeToCH1];
    (destruct presenting; [reflexivity |]);
    cbv beta iota delta [osc probeGrabbed];
    destruct (g && negb (probeConnected s)); try reflexivity;
    now destruct onPlane, near.
Qed.

Lemma onClick_probe_ok (p : bool) (hit : option interactive) (w : world) :
  probe_ok w -> probe_ok (exec (onClick p hit) w).
Proof.
  intros Hw. unfold onClick, exec. destruct p; [exact Hw |].
  destruct hit as [intr |].
  - rewrite playClick_then. now apply handleControl_probe_ok.
  - cbn [bind get]. destruct (probeGrabbed w); [reflexivity | exact Hw].
Qed.

Lemma onXRSelect_probe_ok (hit : option interactive) (w : world) :
  probe_ok w -> probe_ok (exec (onXRSelect hit) w).
Proof.
  intros Hw. unfold onXRSelect, exec. destruct hit as [intr |]; [| exact Hw].
  rewrite playClick_then. now apply handleControl_probe_ok.
Qed.

Lemma animate_probe_ok (dt : R) (p onPlane near : bool) (w : world) :
  probe_ok w -> probe_ok (exec (animate dt p onPlane near) w).
Proof.
  intros Hw. unfold exec. rewrite animate_eq. cbv zeta.
  set (w1 := if power (osc w) && isRunning (osc w) && probeConnected (osc w)
             then _ else w).
  assert (H1 : probe_ok w1).
  { subst w1. now destruct (power (osc w) && isRunning (osc w)
                            && probeConnected (osc w)). }
  unfold exec. destruct (drawScreen_touches (wavePhase w1) w1) as (d & f & E).
  rewrite E. cbn [final]. set (w2 := World _ _ _ _ _ _ _).
  assert (H2 : probe_ok w2) by exact H1.
  destruct p; [exact H2 |].
  destruct (probeGrabbed w2 && negb (probeConnected (osc w2))); [| exact H2].
  destruct near; [apply snapProbeToCH1_probe_ok |].
  now destruct onPlane.
Qed.

Lemma handle_probe_ok (e : event) (w : world) :
  probe_ok w -> probe_ok (exec (handle e) w).
Proof.
  destruct e as [k ex | p hit | hit | dt p onPlane near]; cbn [handle].
  - apply handleControl_probe_ok.
  - apply onClick_probe_ok.
  - apply onXRSelect_probe_ok.
  - apply animate_probe_ok.
Qed.

Lemma run_probe_ok (es : list event) :
  forall w, probe_ok w -> probe_ok (run es w).
Proof.
  induction es as [| e rest IH]; intros w Hw; cbn [run].
  - exact Hw.
  - apply IH, handle_probe_ok, Hw.
Qed.

Lemma run_app (es1 es2 : list event) (w : world) :
  run (es1 ++ es2) w = run es2 (run es1 w).
Proof.
  revert w. induction es1 as [| e rest IH]; intros w; cbn [run app].
  - reflexivity.
  - apply IH.
Qed.

(** C1. From the initial state, after any sequence of events (control
    activations through [handleControl], mouse clicks including the drop on
    empty space, XR selects, and animation frames with their auto-snap), the
    probe is never grabbed and connected at the same time. *)
Theorem probe_never_grabbed_and_connected (es : list event) :
  probeGrabbed world0 && probeConnected (osc world0) = false
  /\ probeGrabbed (run es world0) && probeConnected (osc (run es world0)) = false
  /\ ~ (probeGrabbed (run es world0) = true
        /\ probeConnected (osc (run es world0)) = true).
Proof.
  assert (H : probe_ok (run es world0)) by (apply run_probe_ok; reflexivity).
  unfold probe_ok in H. repeat split; try assumption.
  intros [Hg Hc]. rewrite Hg, Hc in H. discriminate.
Qed.

(** *** The tutorial index moves forward by at most one per handler *)

Lemma bumped_bounds (k : string) (s : Z) :
  s <= bumped k s <= s + 1 /\ (s <= 7 -> bumped k s <= 7).
Proof. destruct (bumped_cases k s) as [(-> & _ & Hs) | (-> & _)]; lia. Qed.

Lemma step_le_same (w w' : world) :
  currentStep (osc w') = currentStep (osc w) -> step_le w w'.
Proof. unfold step_le. lia. Qed.

Lemma step_le_bump (k : string) (w w' : world) :
  currentStep (osc w') = currentStep (osc w) -> step_le w (bump k w').
Proof.
  intros E. unfold step_le, bump. cbn [osc set_osc set_currentStep currentStep].
  rewrite E. apply bumped_bounds.
Qed.

Lemma snapProbeToCH1_step (w : world) : step_le w (final (snapProbeToCH1 w)).
Proof.
  rewrite snapProbeToCH1_eq. cbn [final].
  apply (step_le_bump "ch1" w). reflexivity.
Qed.

Lemma handleControl_step (k : string) (ex : extra) (w : world) :
  step_le w (exec (handleControl k ex) w).
Proof.
  by_kind k; cbv zeta; cbn [final];
    try (apply step_le_bump; reflexivity); try (apply step_le_same; reflexivity).
  - (* probe_body *)
    destruct (probeConnected (osc w)); [(apply step_le_same; reflexivity) |].
    destruct (probeGrabbed w); (apply step_le_same; reflexivity).
  - (* ch1 *)
    destruct (probeConnected (osc w)); [(apply step_le_same; reflexivity) |].
    destruct (probeGrabbed w); [apply snapProbeToCH1_step | (apply step_le_same; reflexivity)].
  - (* wave *)
    destruct (wave ex); [apply step_le_bump; reflexivity | (apply step_le_same; reflexivity)].
  - (* runstop *)
    apply step_le_bump. now destruct (isRunning (osc w)).
Qed.

Lemma handle_step (e : event) (w : world) : step_le w (exec (handle e) w).
Proof.
  destruct e as [k ex | p hit | hit | dt p onPlane near]; cbn [handle].
  - apply handleControl_step.
  - unfold onClick, exec. destruct p; [(apply step_le_same; reflexivity) |].
    destruct hit as [intr |].
    + rewrite playClick_then. apply (handleControl_step _ _ (emit ClickCue w)).
    + cbn [bind get]. destruct (probeGrabbed w); (apply step_le_same; reflexivity).
  - unfold onXRSelect, exec. destruct hit as [intr |]; [| (apply step_le_same; reflexivity)].
    rewrite playClick_then. apply (handleControl_step _ _ (emit ClickCue w)).
  - unfold exec. rewrite animate_eq. cbv zeta.
    set (w1 := if power (osc w) && isRunning (osc w) && probeConnected (osc w)
               then _ else w).
    assert (E1 : currentStep (osc w1) = currentStep (osc w)).
    { subst w1. now destruct (power (osc w) && isRunning (osc w)
                              && probeConnected (osc w)). }
    unfold exec. destruct (drawScreen_touches (wavePhase w1) w1) as (d & f & E).
    rewrite E. cbn [final]. set (w2 := World _ _ _ _ _ _ _).
    assert (H2 : step_le w w2).
    { unfold step_le. subst w2. cbn [osc]. rewrite E1. lia. }
    destruct p; [exact H2 |].
    destruct (probeGrabbed w2 && negb (probeConnected (osc w2))); [| exact H2].
    destruct near; [| now destruct onPlane].
    rewrite snapProbeToCH1_eq. cbn [final].
    apply step_le_bump. destruct onPlane; exact E1.
Qed.

Lemma run_step (es : list event) :
  forall w,
    currentStep (osc w) <= currentStep (osc (run es w))
    /\ (currentStep (osc w) <= 7 -> currentStep (osc (run es w)) <= 7).
Proof.
  induction es as [| e rest IH]; intros w; cbn [run].
  - lia.
  - destruct (handle_step e w) as [H1 H2].
    destruct (IH (exec (handle e) w)) as [H3 H4]. lia.
Qed.

(** C2. [advanceStep] with control kind [k] on step index [s] raises the
    index by exactly one if and only if step [s] expects [k] and [s < 7];
    in every other case the index is unchanged; it never goes down and never
    jumps by more than one.  The rest of the state is untouched. *)
Theorem advanceStep_rule (k : string) (w : world) :
  let s := currentStep (osc w) in
  let s' := currentStep (osc (exec (advanceStep k) w)) in
  (s' = s + 1 <-> expectedControlKind s = Some k /\ s < stepCount - 1)
  /\ (~ (expectedControlKind s = Some k /\ s < stepCount - 1) -> s' = s)
  /\ s <= s' <= s + 1
  /\ advanceStep k w = Done tt (set_osc (set_currentStep s' (osc w)) w).
Proof.
  cbv zeta. unfold exec. rewrite advanceStep_bump. cbn [final].
  change (stepCount - 1) with 7.
  unfold bump at 1 2 3 4. cbn [osc set_osc set_currentStep currentStep].
  destruct (bumped_cases k (currentStep (osc w))) as [(E & Hk & Hs) | (E & Hn)];
    rewrite E; repeat split; try lia; try tauto.
Qed.

(** C4. Starting from step 0, over any sequence of events (calls of
    [handleControl] with any control kind and any parameters, and also clicks,
    XR selects and animation frames) the tutorial step index never decreases
    from one point of the sequence to a later one and stays within
    [0, N-1] = [0, 7]. *)
Theorem tutorial_index_monotone (es1 es2 : list event) :
  currentStep (osc world0) = 0
  /\ currentStep (osc (run es1 world0))
     <= currentStep (osc (run (es1 ++ es2) world0))
  /\ 0 <= currentStep (osc (run es1 world0)) <= stepCount - 1.
Proof.
  change (stepCount - 1) with 7. rewrite run_app.
  destruct (run_step es1 world0) as [H1 H2].
  destruct (run_step es2 (run es1 world0)) as [H3 _].
  change (currentStep (osc world0)) with 0 in *. lia.
Qed.

(** What one rotary activation does to its own index. *)
Lemma rotary_turn (r : rotary) (ex : extra) (w : world) :
  rotaryIdx r (osc (exec (handleControl (rotaryKind r) ex) w))
  = turn (rotaryIdx r (osc w)) (JS.nullish (dir ex) 1) (tableLength r).
Proof.
  unfold exec. destruct r; cbn [rotaryKind rotaryIdx tableLength].
  - now rewrite handleControl_rotary_timebase.
  - now rewrite handleControl_rotary_vdiv.
  - now rewrite handleControl_rotary_trigger.
Qed.

Lemma tableLength_pos (r : rotary) : 0 < tableLength r.
Proof. destruct r; reflexivity. Qed.

(** C3, as the code has it.  For a starting index within the table and a
    direction [d] (1 when [extra.dir] is absent) such that
    [index + d + length] is a non-negative safe integer -- in particular for
    every [d] from [-length] upwards -- a Timebase, Vdiv or Trigger activation
    sets the index to [(index + d) mod length], which lies in
    [0, length). *)
Theorem rotary_wraps (r : rotary) (ex : extra) (w : world) :
  let d := JS.nullish (dir ex) 1 in
  let idx := rotaryIdx r (osc w) in
  let idx' := rotaryIdx r (osc (exec (handleControl (rotaryKind r) ex) w)) in
  0 <= idx < tableLength r ->
  0 <= idx + d + tableLength r <= JS.MAX_SAFE_INTEGER ->
  idx' = (idx + d) mod tableLength r /\ 0 <= idx' < tableLength r.
Proof.
  cbv zeta. intros Hidx Hsum. rewrite rotary_turn.
  apply turn_in_range; [apply tableLength_pos | lia].
Qed.

Lemma rotary_wraps_witness :
  rotaryIdx Timebase
    (osc (exec (handleControl "timebase" (Extra (Some (-1)) None)) world0))
  = (3 + -1) mod 8
  /\ 0 <= rotaryIdx Timebase
            (osc (exec (handleControl "timebase" (Extra (Some (-1)) None)) world0))
       < 8.
Proof.
  apply (rotary_wraps Timebase (Extra (Some (-1)) None) world0).
  - vm_compute. split; [discriminate | reflexivity].
  - vm_compute. split; discriminate.
Defined.

(** C3 as stated fails: with the index at 3 and direction -12 the Timebase
    index becomes -1, which is neither [(3 - 12) mod 8 = 7] nor inside the
    table. *)
Lemma direction_below_minus_length_escapes :
  ~ (forall (r : rotary) (ex : extra) (w : world),
        let d := JS.nullish (dir ex) 1 in
        let idx := rotaryIdx r (osc w) in
        let idx' := rotaryIdx r (osc (exec (handleControl (rotaryKind r) ex) w)) in
        0 <= idx < tableLength r ->
        idx' = (idx + d) mod tableLength r /\ 0 <= idx' < tableLength r).
Proof.
  intros H.
  specialize (H Timebase (Extra (Some (-12)) None) world0).
  cbv zeta in H. rewrite rotary_turn in H.
  vm_compute in H.
  destruct H as [_ [Hlo _]]; [split; [discriminate | reflexivity] |].
  apply Hlo. reflexivity.
Qed.

(** C5. Whatever the state, Auto puts the three indices at 3, sets
    [isRunning], clears the frozen frame and leaves the tutorial step index
    (and power, probe and waveform) as they were; it only adds its toast. *)
Theorem auto_resets (ex : extra) (w : world) :
  let w' := exec (handleControl "auto" ex) w in
  handleControl "auto" ex w = Done tt w'
  /\ timebaseIdx (osc w') = 3 /\ vdivIdx (osc w') = 3 /\ triggerIdx (osc w') = 3
  /\ isRunning (osc w') = true
  /\ frozenImageData w' = None
  /\ currentStep (osc w') = currentStep (osc w)
  /\ power (osc w') = power (osc w)
  /\ probeConnected (osc w') = probeConnected (osc w)
  /\ waveform (osc w') = waveform (osc w)
  /\ probeGrabbed w' = probeGrabbed w
  /\ emitted w' = (emitted w ++ [Toast "AUTO – settings reset to defaults"])%list.
Proof.
  cbv zeta. unfold exec. rewrite handleControl_auto. cbn [final].
  repeat split.
Qed.

(** C7. With the probe neither grabbed nor connected, activating the CH1
    port changes nothing in the instrument, probe or tutorial state: the only
    thing that happens is the toast asking to grab the probe first. *)
Theorem ch1_without_probe (ex : extra) (w : world) :
  probeGrabbed w = false ->
  probeConnected (osc w) = false ->
  handleControl "ch1" ex w
  = Done tt (emit (Toast "Grab the probe first, then insert into CH1") w).
Proof.
  intros Hg Hc. rewrite handleControl_ch1, Hg, Hc. reflexivity.
Qed.

Lemma ch1_without_probe_witness :
  handleControl "ch1" noExtra world0
  = Done tt (emit (Toast "Grab the probe first, then insert into CH1") world0).
Proof.
  apply (ch1_without_probe noExtra world0); reflexivity.
Defined.

(** C8. A rotary control activated with power off changes its index exactly
    as it does with power on: the new index is the same function of the old
    one, and the whole resulting state differs from the powered-on result
    only in the power flag itself.  No branch of the dispatcher looks at
    [power] for these controls. *)
Theorem rotary_ignores_power (r : rotary) (ex : extra) (w : world) :
  let off := exec (handleControl (rotaryKind r) ex) (with_power false w) in
  let on := exec (handleControl (rotaryKind r) ex) (with_power true w) in
  rotaryIdx r (osc off)
  = turn (rotaryIdx r (osc w)) (JS.nullish (dir ex) 1) (tableLength r)
  /\ rotaryIdx r (osc off) = rotaryIdx r (osc on)
  /\ off = with_power false on
  /\ power (osc off) = false.
Proof.
  cbv zeta. rewrite !rotary_turn. split; [| split; [| split]].
  - now destruct r.
  - now destruct r.
  - unfold exec. destruct r; cbn [rotaryKind];
      rewrite ?handleControl_rotary_timebase, ?handleControl_rotary_vdiv,
        ?handleControl_rotary_trigger; reflexivity.
  - unfold exec. destruct r; cbn [rotaryKind];
      rewrite ?handleControl_rotary_timebase, ?handleControl_rotary_vdiv,
        ?handleControl_rotary_trigger; reflexivity.
Qed.

Lemma rotary_repeat (r : rotary) (ex : extra) (n : nat) :
  JS.nullish (dir ex) 1 = 1 ->
  forall w,
    0 <= rotaryIdx r (osc w) < tableLength r ->
    rotaryIdx r (osc (run (repeat (Dispatch (rotaryKind r) ex) n) w))
    = (rotaryIdx r (osc w) + Z.of_nat n) mod tableLength r.
Proof.
  intros Hd. pose proof (tableLength_pos r) as Hlen.
  induction n as [| n IH]; intros w Hw.
  - cbn [repeat run]. rewrite Z.add_0_r. symmetry. now apply Z.mod_small.
  - cbn [repeat run handle].
    assert (Hstep : rotaryIdx r (osc (exec (handleControl (rotaryKind r) ex) w))
                    = (rotaryIdx r (osc w) + 1) mod tableLength r
                    /\ 0 <= rotaryIdx r
                              (osc (exec (handleControl (rotaryKind r) ex) w))
                         < tableLength r).
    { rewrite rotary_turn, Hd. apply turn_in_range; lia. }
    destruct Hstep as [E Hin]. rewrite IH by exact Hin. rewrite E.
    rewrite Zplus_mod_idemp_l. f_equal. lia.
Qed.

(** C9. From a valid index, activating Timebase, Vdiv or Trigger with
    direction +1 as many times as the table is long brings the index back
    to where it started. *)
Theorem rotary_full_turn (r : rotary) (ex : extra) (w : world) :
  JS.nullish (dir ex) 1 = 1 ->
  0 <= rotaryIdx r (osc w) < tableLength r ->
  rotaryIdx r
    (osc (run (repeat (Dispatch (rotaryKind r) ex) (Z.to_nat (tableLength r))) w))
  = rotaryIdx r (osc w).
Proof.
  intros Hd Hw. pose proof (tableLength_pos r) as Hlen.
  rewrite rotary_repeat by assumption.
  rewrite Z2Nat.id by lia.
  replace (rotaryIdx r (osc w) + tableLength r)
    with (rotaryIdx r (osc w) + 1 * tableLength r) by ring.
  rewrite Z.mod_add by lia. now apply Z.mod_small.
Qed.

Lemma rotary_full_turn_witness :
  rotaryIdx Vdiv
    (osc (run (repeat (Dispatch "vdiv" noExtra) (Z.to_nat (tableLength Vdiv)))
              world0))
  = rotaryIdx Vdiv (osc world0).
Proof.
  apply (rotary_full_turn Vdiv noExtra world0).
  - reflexivity.
  - vm_compute. split; [discriminate | reflexivity].
Defined.

(** C10. Drawn with power on, the probe connected, the display stopped and
    no frozen image stored, the screen does not take the STOP branch: it
    shows a fresh live frame computed from the current settings and phase,
    and that frame becomes the stored frozen image. *)
Theorem drawScreen_stopped_without_image (phase : R) (w : world) :
  power (osc w) = true ->
  probeConnected (osc w) = true ->
  isRunning (osc w) = false ->
  frozenImageData w = None ->
  drawScreen phase w
  = Done tt (set_frozenImageData (Some (liveFrame (osc w) phase))
               (set_screen (Live (liveFrame (osc w) phase)) w)).
Proof.
  intros Hp Hc Hr Hf. unfold drawScreen. cbn [bind get].
  rewrite Hp, Hc, Hr, Hf. reflexivity.
Qed.

Lemma drawScreen_stopped_without_image_witness :
  drawScreen 0%R stoppedBeforeFirstFrame
  = Done tt
      (set_frozenImageData
         (Some (liveFrame (osc stoppedBeforeFirstFrame) 0%R))
         (set_screen (Live (liveFrame (osc stoppedBeforeFirstFrame) 0%R))
                     stoppedBeforeFirstFrame)).
Proof.
  apply (drawScreen_stopped_without_image 0%R stoppedBeforeFirstFrame);
    reflexivity.
Defined.

(** *** The live trace against the signal model *)

Lemma sample_t_angle (timebase frequency phase : R) (px : Z) :
  sample_t timebase frequency phase px
  = spec_angle (IZR px / IZR SCREEN_W)
               (spec_periodsShown timebase frequency) phase.
Proof. unfold sample_t, spec_angle, spec_periodsShown. ring. Qed.

Lemma sample_norm_shape (k : waveformKind) (t : R) :
  sample_norm (Some (kindName k)) t = spec_shape k t.
Proof.
  destruct k; cbn; try reflexivity. apply sgn_sign.
Qed.

Lemma pixels_span (px : Z) : In px pixels -> 0 <= px <= SCREEN_W.
Proof.
  unfold pixels. intros H. apply in_map_iff in H as (n & <- & Hn).
  apply in_seq in Hn. unfold SCREEN_W in *. lia.
Qed.

Lemma pixels_normalized (px : Z) :
  In px pixels -> (0 <= IZR px / IZR SCREEN_W <= 1)%R.
Proof.
  intros H. apply pixels_span in H as [Hlo Hhi].
  apply IZR_le in Hlo, Hhi. unfold SCREEN_W in *. lra.
Qed.

(** C6. In a live frame, with the waveform one of the three kinds and the
    timebase and V/div indices inside their tables, the trace has one point
    for each of the 513 columns [px = 0..W]; the column sits at the
    normalized position [u = px / W] in [0,1], and its height is
    [H/2 - norm * ampScale] where [norm] is the shape function of the kind
    (sin, sign of sin, or (2/pi) asin (sin)) applied to the angle
    [u * 2 pi * periodsShown + phase], with
    [periodsShown = (timebase * 10) / (1000 / frequency)]. *)
Theorem live_trace_follows_signal_model
        (k : waveformKind) (s : oscState) (phase : R) (timebase vdiv : number) :
  waveform s = Some (kindName k) ->
  JS.index TIMEBASE_VALUES (timebaseIdx s) = Some timebase ->
  JS.index VDIV_VALUES (vdivIdx s) = Some vdiv ->
  trace (liveFrame s phase)
  = Some (map (fun px =>
                 let u := (IZR px / IZR SCREEN_W)%R in
                 let norm := spec_sample k (Q2R (value timebase))
                                         (Q2R (frequency s)) phase u in
                 (px, (IZR SCREEN_H / 2
                       - norm * ampScale (Q2R (value vdiv)) (Q2R (amplitude s)))%R))
              pixels)
  /\ Forall (fun px => (0 <= IZR px / IZR SCREEN_W <= 1)%R) pixels
  /\ List.length pixels = 513%nat.
Proof.
  intros Hwf Htb Hvd. split; [| split].
  - unfold liveFrame. cbn [trace]. rewrite Htb, Hvd, Hwf.
    unfold trace_points, trace_norms. rewrite map_map. f_equal.
    apply map_ext. intros px. cbn [fst snd]. cbv zeta. unfold spec_sample.
    now rewrite sample_t_angle, sample_norm_shape.
  - apply Forall_forall. exact pixels_normalized.
  - reflexivity.
Qed.

Lemma live_trace_follows_signal_model_witness :
  trace (liveFrame oscState0 0%R)
  = Some (map (fun px =>
                 let u := (IZR px / IZR SCREEN_W)%R in
                 let norm := spec_sample Sine (Q2R (value (Num "1" 1)))
                                         (Q2R (frequency oscState0)) 0%R u in
                 (px, (IZR SCREEN_H / 2
                       - norm * ampScale (Q2R (value (Num "1" 1)))
                                         (Q2R (amplitude oscState0)))%R))
              pixels)
  /\ Forall (fun px => (0 <= IZR px / IZR SCREEN_W <= 1)%R) pixels
  /\ List.length pixels = 513%nat.
Proof.
  apply (live_trace_follows_signal_model Sine oscState0 0%R (Num "1" 1) (Num "1" 1));
    reflexivity.
Defined.

(* ------------------------------------------------------------------------- *)
(** ** Scenarios *)

(** Power on, a CH1 click without the probe in hand, grab, then a frame in
    which the probe comes close enough to snap in. *)
Example scenario_connect :
  let w1 := run [Dispatch "power" noExtra] world0 in
  let w2 := run [Dispatch "ch1" noExtra] w1 in
  let w3 := run [Dispatch "probe_body" noExtra;
                 AnimationFrame 0%R false true true] w2 in
  (power (osc w1), currentStep (osc w1)) = (true, 1)
  /\ (osc w2, probeGrabbed w2) = (osc w1, probeGrabbed w1)
  /\ (probeConnected (osc w3), probeGrabbed w3, probePos w3,
      currentStep (osc w3)) = (true, false, AT_CH1, 2).
Proof. repeat split. Qed.

(** Auto after some knob turns, late in the tutorial. *)
Example scenario_auto :
  let w := run [Dispatch "power" noExtra; Dispatch "timebase" noExtra;
                Dispatch "vdiv" (Extra (Some (-1)) None);
                Dispatch "runstop" noExtra; Dispatch "auto" noExtra] world0 in
  (timebaseIdx (osc w), vdivIdx (osc w), triggerIdx (osc w),
   isRunning (osc w), currentStep (osc w)) = (3, 3, 3, true, 1).
Proof. reflexivity. Qed.

(** A WAVE dispatch without a waveform throws after the assignment and
    before the tutorial is advanced. *)
Example scenario_wave_throws :
  handleControl "wave" noExtra world0
  = Thrown (set_osc (set_waveform None oscState0) world0).
Proof. reflexivity. Qed.

(** The feedback texts of the rotary controls. *)
Example scenario_toasts :
  emitted (run [Dispatch "timebase" noExtra; Dispatch "vdiv" (Extra (Some (-3)) None);
                Dispatch "trigger" noExtra; Dispatch "trigger" (Extra (Some (-2)) None)]
               world0)
  = [ Toast "Timebase: 2 ms/div"; Toast "V/DIV: 0.1 V";
      Toast "Trigger: +1 div"; Toast "Trigger: -1 div" ].
Proof. reflexivity. Qed.

(* ------------------------------------------------------------------------- *)
(** ** Further properties of the dispatcher and the listeners *)

Ltac flags w :=
  destruct w as [[pw pc wf fq am ti vi tri ir cs] g pos fr ph sc em].

(** *** Where the probe is *)

Lemma handleControl_probe_placed (k : string) (ex : extra) (w : world) :
  probe_placed w -> probe_placed (exec (handleControl k ex) w).
Proof.
  intros Hw. by_kind k; try exact Hw.
  - (* probe_body *)
    flags w. unfold probe_placed in *. cbn in *.
    destruct pc, g; cbn; intuition congruence.
  - (* ch1 *)
    flags w. unfold probe_placed in *.
    cbn -[snapProbeToCH1] in *. destruct pc; [cbn; intuition congruence |].
    destruct g; [rewrite snapProbeToCH1_eq; cbn; intuition congruence | exact Hw].
  - (* wave *)
    destruct (wave ex); exact Hw.
  - (* runstop *)
    destruct (isRunning (osc w)); exact Hw.
Qed.

Lemma handle_probe_placed (e : event) (w : world) :
  probe_ok w -> probe_placed w -> probe_placed (exec (handle e) w).
Proof.
  intros Hok Hw.
  destruct e as [k ex | p hit | hit | dt p onPlane near]; cbn [handle].
  - now apply handleControl_probe_placed.
  - unfold onClick, exec. destruct p; [exact Hw |].
    destruct hit as [intr |].
    + rewrite playClick_then.
      now apply (handleControl_probe_placed _ _ (emit ClickCue w)).
    + cbn [bind get]. destruct (probeGrabbed w) eqn:Eg; [| exact Hw].
      flags w. unfold probe_placed, probe_ok in *. cbn in *.
      subst g. cbn in Hok. subst pc. intuition congruence.
  - unfold onXRSelect, exec. destruct hit as [intr |]; [| exact Hw].
    rewrite playClick_then.
    now apply (handleControl_probe_placed _ _ (emit ClickCue w)).
  - unfold exec. rewrite animate_eq. cbv zeta.
    set (w1 := if power (osc w) && isRunning (osc w) && probeConnected (osc w)
               then _ else w).
    assert (H1 : probe_placed w1).
    { subst w1. now destruct (power (osc w) && isRunning (osc w)
                              && probeConnected (osc w)). }
    unfold exec. destruct (drawScreen_touches (wavePhase w1) w1) as (d & f & E).
    rewrite E. cbn [final]. set (w2 := World _ _ _ _ _ _ _).
    assert (H2 : probe_placed w2) by exact H1.
    destruct p; [exact H2 |].
    destruct (probeGrabbed w2 && negb (probeConnected (osc w2))) eqn:Eg;
      [| exact H2].
    apply andb_true_iff in Eg as [Eg Ec]. apply negb_true_iff in Ec.
    destruct near.
    + rewrite snapProbeToCH1_eq. unfold probe_placed. cbn.
      intuition congruence.
    + destruct onPlane; [| exact H2].
      unfold probe_placed. cbn [final set_probePos osc probeGrabbed probePos].
      rewrite Eg, Ec. intuition congruence.
Qed.

(** X1. After any sequence of events from the initial state, a connected
    probe sits in the CH1 port and a probe that is neither grabbed nor
    connected lies at its resting place. *)
Theorem probe_position_follows_mode (es : list event) :
  let w := run es world0 in
  (probeConnected (osc w) = true -> probePos w = AT_CH1)
  /\ (probeGrabbed w = false -> probeConnected (osc w) = false ->
      probePos w = PROBE_REST).
Proof.
  cbv zeta. change (probe_placed (run es world0)).
  assert (H0 : probe_ok world0 /\ probe_placed world0)
    by (repeat split; discriminate).
  revert H0. generalize world0.
  induction es as [| e rest IH]; intros w [Hok Hw]; cbn [run].
  - exact Hw.
  - apply IH. split;
      [now apply handle_probe_ok | now apply handle_probe_placed].
Qed.

(** X2. The probe control and the CH1 port drive a three-state machine:
    the probe control grabs a resting probe, drops a grabbed one and unplugs
    a connected one; the CH1 port plugs a grabbed probe in, unplugs a
    connected one straight back to rest, and leaves a resting one alone. *)
Theorem probe_transitions (ex : extra) (w : world) :
  probeModeOf (exec (handleControl "probe_body" ex) w)
  = match probeModeOf w with
    | Resting => Grabbed
    | Grabbed => Resting
    | Connected => Resting
    end
  /\ probeModeOf (exec (handleControl "ch1" ex) w)
     = match probeModeOf w with
       | Resting => Resting
       | Grabbed => Connected
       | Connected => Resting
       end.
Proof.
  unfold exec. rewrite handleControl_probe_body, handleControl_ch1.
  flags w. unfold probeModeOf. cbn -[snapProbeToCH1].
  destruct pc, g; rewrite ?snapProbeToCH1_eq; split; reflexivity.
Qed.

(** *** Tutorial gating *)

Lemma bumped_unexpected (k : string) (s : Z) :
  expectedControlKind s <> Some k -> bumped k s = s.
Proof.
  intros Hk. destruct (bumped_cases k s) as [(_ & E & _) | (E & _)];
    [contradiction | exact E].
Qed.

(** X3. A control other than the one the current step expects never moves
    the tutorial, whatever its parameters. *)
Theorem unexpected_control_keeps_step (k : string) (ex : extra) (w : world) :
  expectedControlKind (currentStep (osc w)) <> Some k ->
  currentStep (osc (exec (handleControl k ex) w)) = currentStep (osc w).
Proof.
  intros Hk. by_kind k; cbv zeta; cbn [final]; try reflexivity;
    try (unfold bump; cbn [osc set_osc set_currentStep currentStep emit];
         now apply bumped_unexpected).
  - (* probe_body *)
    destruct (probeConnected (osc w)); [reflexivity |].
    now destruct (probeGrabbed w).
  - (* ch1 *)
    destruct (probeConnected (osc w)); [reflexivity |].
    destruct (probeGrabbed w); [| reflexivity].
    rewrite snapProbeToCH1_eq. cbn. now apply bumped_unexpected.
  - (* wave *)
    destruct (wave ex); [| reflexivity].
    cbn. now apply bumped_unexpected.
  - (* runstop *)
    destruct (isRunning (osc w)); cbn; now apply bumped_unexpected.
Qed.

Lemma unexpected_control_keeps_step_witness :
  currentStep (osc (exec (handleControl "timebase" noExtra) world0))
  = currentStep (osc world0).
Proof.
  apply (unexpected_control_keeps_step "timebase" noExtra world0).
  vm_compute. discriminate.
Defined.

Lemma run_step_count (es : list event) :
  forall w,
    currentStep (osc (run es w))
    <= currentStep (osc w) + Z.of_nat (List.length es).
Proof.
  induction es as [| e rest IH]; intros w; cbn [run List.length].
  - lia.
  - destruct (handle_step e w) as [H1 _].
    specialize (IH (exec (handle e) w)). lia.
Qed.

(** X4. Every event advances the tutorial by at most one step: after [n]
    events from the initial state the step index is at most [n]. *)
Theorem steps_need_events (es : list event) :
  currentStep (osc (run es world0)) <= Z.of_nat (List.length es).
Proof. apply (run_step_count es world0). Qed.

Lemma press_eq (k lbl : string) (wv : option string) (w : world) :
  exec (handle (press k lbl wv)) w
  = exec (handleControl k (Extra None wv)) (emit ClickCue w).
Proof. reflexivity. Qed.





(** *** Rotary controls *)

(** X6. A rotary activation turns its own index and nothing else of the
    instrument: the other two indices, power, probe, waveform, signal
    source, run state, frozen image, phase and screen stay as they are. *)
Theorem rotary_touches_only_its_index (r r' : rotary) (ex : extra) (w : world) :
  let w' := exec (handleControl (rotaryKind r) ex) w in
  rotaryIdx r' (osc w')
  = (if rotary_eqb r' r
     then turn (rotaryIdx r (osc w)) (JS.nullish (dir ex) 1) (tableLength r)
     else rotaryIdx r' (osc w))
  /\ (power (osc w'), probeConnected (osc w'), waveform (osc w'),
      frequency (osc w'), amplitude (osc w'), isRunning (osc w'))
     = (power (osc w), probeConnected (osc w), waveform (osc w),
        frequency (osc w), amplitude (osc w), isRunning (osc w))
  /\ (probeGrabbed w', probePos w', frozenImageData w', wavePhase w', screen w')
     = (probeGrabbed w, probePos w, frozenImageData w, wavePhase w, screen w).
Proof.
  cbv zeta. unfold exec.
  destruct r; cbn [rotaryKind];
    rewrite ?handleControl_rotary_timebase, ?handleControl_rotary_vdiv,
      ?handleControl_rotary_trigger;
    destruct r'; repeat split.
Qed.

(** X7. From a valid index, one step up followed by one step down, or one
    step down followed by one step up, gives the index back, also across the
    ends of the table. *)
Theorem rotary_back_and_forth (r : rotary) (w : world) :
  0 <= rotaryIdx r (osc w) < tableLength r ->
  let up := Dispatch (rotaryKind r) (Extra (Some 1) None) in
  let down := Dispatch (rotaryKind r) (Extra (Some (-1)) None) in
  rotaryIdx r (osc (run [up; down] w)) = rotaryIdx r (osc w)
  /\ rotaryIdx r (osc (run [down; up] w)) = rotaryIdx r (osc w).
Proof.
  intros Hw. cbv zeta. cbn [run handle]. rewrite !rotary_turn.
  cbn [dir JS.nullish]. pose proof (tableLength_pos r) as Hlen.
  set (i := rotaryIdx r (osc w)) in *. set (n := tableLength r) in *.
  destruct (turn_in_range i 1 n) as [E1 H1]; try lia.
  destruct (turn_in_range i (-1) n) as [E2 H2]; try lia.
  destruct (turn_in_range (turn i 1 n) (-1) n) as [E3 _]; try lia.
  destruct (turn_in_range (turn i (-1) n) 1 n) as [E4 _]; try lia.
  rewrite E3, E4, E1, E2.
  rewrite Zplus_mod_idemp_l, Zplus_mod_idemp_l.
  split;
    [ replace (i + 1 + -1) with i by lia | replace (i + -1 + 1) with i by lia ];
    now apply Z.mod_small.
Qed.

Lemma rotary_back_and_forth_witness :
  rotaryIdx Trigger
    (osc (run [Dispatch "trigger" (Extra (Some 1) None);
               Dispatch "trigger" (Extra (Some (-1)) None)] world0))
  = rotaryIdx Trigger (osc world0)
  /\ rotaryIdx Trigger
       (osc (run [Dispatch "trigger" (Extra (Some (-1)) None);
                  Dispatch "trigger" (Extra (Some 1) None)] world0))
     = rotaryIdx Trigger (osc world0).
Proof.
  apply (rotary_back_and_forth Trigger world0).
  vm_compute. split; [discriminate | reflexivity].
Defined.

(** *** What the registered controls can and cannot do *)

Lemma interactives_panelExtra (intr : interactive) :
  In intr interactives -> panelExtra (ctrlType intr) (asExtra intr).
Proof.
  unfold interactives. cbn [In]. intros H.
  repeat (destruct H as [<- | H]); try contradiction;
    (split; [reflexivity |]); cbn; intros E; try discriminate; tauto.
Qed.

Lemma turn_default_in_range (idx len : Z) :
  0 < len -> 0 <= idx < len -> 0 <= turn idx 1 len < len.
Proof. intros Hlen Hi. apply turn_in_range; lia. Qed.

Lemma handleControl_settings_ok (k : string) (ex : extra) (w : world) :
  panelExtra k ex ->
  settings_ok (osc w) ->
  settings_ok (osc (exec (handleControl k ex) w))
  /\ exists w', handleControl k ex w = Done tt w'.
Proof.
  intros [Hdir Hwave] Hs. pose proof Hs as (Ht & Hv & Hr & Hwf).
  by_kind k; cbv zeta; rewrite ?Hdir; cbn [JS.nullish final];
    try (split; [exact Hs | eexists; reflexivity]).
  - (* probe_body *)
    destruct (probeConnected (osc w)); [| destruct (probeGrabbed w)];
      (split; [exact Hs | eexists; reflexivity]).
  - (* ch1 *)
    destruct (probeConnected (osc w)); [| destruct (probeGrabbed w)];
      rewrite ?snapProbeToCH1_eq;
      (split; [exact Hs | eexists; reflexivity]).
  - (* wave *)
    destruct (Hwave eq_refl) as [E | [E | E]]; rewrite E;
      (split; [| eexists; reflexivity]);
      (split; [exact Ht | split; [exact Hv | split; [exact Hr | cbn; tauto]]]).
  - (* timebase *)
    split; [| eexists; reflexivity].
    split; [now apply turn_default_in_range |].
    split; [exact Hv | split; [exact Hr | exact Hwf]].
  - (* vdiv *)
    split; [| eexists; reflexivity].
    split; [exact Ht |].
    split; [now apply turn_default_in_range | split; [exact Hr | exact Hwf]].
  - (* trigger *)
    split; [| eexists; reflexivity].
    split; [exact Ht | split; [exact Hv |]].
    split; [now apply turn_default_in_range | exact Hwf].
  - (* runstop *)
    destruct (isRunning (osc w));
      (split; [exact Hs | eexists; reflexivity]).
  - (* auto *)
    split; [| eexists; reflexivity].
    split; [| split; [| split; [| exact Hwf]]]; cbn; lia.
Qed.

Lemma panelEvent_extra (e : event) :
  panelEvent e ->
  match e with
  | Dispatch k ex => panelExtra k ex
  | Click _ (Some intr) | XRSelect (Some intr) =>
      panelExtra (ctrlType intr) (asExtra intr)
  | _ => True
  end.
Proof.
  destruct e as [k ex | p [intr |] | [intr |] | dt p onPlane near]; cbn;
    try exact (fun _ => I); try apply interactives_panelExtra.
  intros (intr & Hin & -> & ->). now apply interactives_panelExtra.
Qed.

Lemma animate_done (dt : R) (p onPlane near : bool) (w : world) :
  exists w',
    animate dt p onPlane near w = Done tt w' /\ osc w' = osc (final (animate dt p onPlane near w))
    /\ (timebaseIdx (osc w'), vdivIdx (osc w'), triggerIdx (osc w'), waveform (osc w'))
       = (timebaseIdx (osc w), vdivIdx (osc w), triggerIdx (osc w), waveform (osc w)).
Proof.
  rewrite animate_eq. cbv zeta.
  set (w1 := if power (osc w) && isRunning (osc w) && probeConnected (osc w)
             then _ else w).
  assert (E1 : osc w1 = osc w).
  { subst w1. now destruct (power (osc w) && isRunning (osc w)
                            && probeConnected (osc w)). }
  unfold exec. destruct (drawScreen_touches (wavePhase w1) w1) as (d & f & E).
  rewrite E. cbn [final]. set (w2 := World _ _ _ _ _ _ _).
  assert (E2 : osc w2 = osc w) by exact E1.
  destruct p; [eexists; repeat split; now rewrite E2 |].
  destruct (probeGrabbed w2 && negb (probeConnected (osc w2)));
    [| eexists; repeat split; now rewrite E2].
  destruct near.
  - rewrite snapProbeToCH1_eq. eexists. repeat split.
    cbn [final osc bump emit set_osc set_currentStep set_probeConnected
         set_probePos set_probeGrabbed timebaseIdx vdivIdx triggerIdx waveform].
    destruct onPlane; cbn [osc set_probePos]; fold w2; now rewrite E2.
  - eexists. repeat split. destruct onPlane; cbn [osc set_probePos final];
      now rewrite E2.
Qed.

Lemma handle_settings_ok (e : event) (w : world) :
  panelEvent e ->
  settings_ok (osc w) ->
  settings_ok (osc (exec (handle e) w))
  /\ exists w', handle e w = Done tt w'.
Proof.
  intros He Hs. apply panelEvent_extra in He.
  destruct e as [k ex | p [intr |] | [intr |] | dt p onPlane near];
    cbn [handle].
  - now apply handleControl_settings_ok.
  - unfold onClick, exec. destruct p; [split; [exact Hs | eexists; reflexivity] |].
    rewrite playClick_then.
    now apply (handleControl_settings_ok _ _ (emit ClickCue w)).
  - unfold onClick, exec. destruct p; [split; [exact Hs | eexists; reflexivity] |].
    cbn [bind get]. destruct (probeGrabbed w);
      (split; [exact Hs | eexists; reflexivity]).
  - unfold onXRSelect, exec. rewrite playClick_then.
    now apply (handleControl_settings_ok _ _ (emit ClickCue w)).
  - split; [exact Hs | eexists; reflexivity].
  - destruct (animate_done dt p onPlane near w) as (w' & E & _ & Eidx).
    unfold exec. rewrite E. cbn [final]. split; [| now exists w'].
    injection Eidx as Et Ev Er Ew. unfold settings_ok.
    rewrite Et, Ev, Er, Ew. exact Hs.
Qed.

Lemma handleControl_completes (k : string) (ex : extra) (w : world) :
  (k = "wave" -> wave ex <> None) ->
  exists w', handleControl k ex w = Done tt w'.
Proof.
  intros Hwave. by_kind k; cbv zeta;
    try (specialize (Hwave eq_refl); destruct (wave ex); [| contradiction]);
    repeat match goal with
           | |- context [if ?b then _ else _] => destruct b
           end;
    rewrite ?snapProbeToCH1_eq; eexists; reflexivity.
Qed.

Lemma panelExtra_wave (k : string) (ex : extra) :
  panelExtra k ex -> k = "wave" -> wave ex <> None.
Proof.
  intros [_ H] Hk. destruct (H Hk) as [E | [E | E]]; rewrite E; discriminate.
Qed.

(** X8. No event that comes through the registered controls makes a
    handler throw: in every state, clicks and XR selects on registered
    descriptors, dispatches with such a descriptor, and animation frames all
    run to completion.  (Only a WAVE dispatch without a waveform throws.) *)
Theorem panel_events_never_throw (e : event) (w : world) :
  panelEvent e -> exists w', handle e w = Done tt w'.
Proof.
  intros He. pose proof (panelEvent_extra e He) as Hx.
  destruct e as [k ex | p [intr |] | [intr |] | dt p onPlane near];
    cbn [handle].
  - apply handleControl_completes. now apply panelExtra_wave.
  - unfold onClick. destruct p; [eexists; reflexivity |].
    rewrite playClick_then.
    apply handleControl_completes. now apply panelExtra_wave.
  - unfold onClick. destruct p; [eexists; reflexivity |].
    cbn [bind get]. destruct (probeGrabbed w); eexists; reflexivity.
  - unfold onXRSelect. rewrite playClick_then.
    apply handleControl_completes. now apply panelExtra_wave.
  - eexists; reflexivity.
  - destruct (animate_done dt p onPlane near w) as (w' & E & _).
    now exists w'.
Qed.

Lemma panel_events_never_throw_witness :
  exists w',
    handle (press "wave" "WAVE:square" (Some "square")) world0 = Done tt w'.
Proof.
  apply (panel_events_never_throw
           (press "wave" "WAVE:square" (Some "square")) world0).
  unfold press, panelEvent, panelHit, interactives. cbn [In].
  repeat (first [left; reflexivity | right]).
Defined.

Lemma run_settings_ok (es : list event) :
  Forall panelEvent es ->
  forall w, settings_ok (osc w) -> settings_ok (osc (run es w)).
Proof.
  induction 1 as [| e rest He _ IH]; intros w Hs; cbn [run].
  - exact Hs.
  - apply IH. now apply handle_settings_ok.
Qed.

Lemma index_defined {A : Type} (arr : list A) (i : Z) :
  0 <= i < JS.length arr -> exists x, JS.index arr i = Some x.
Proof.
  unfold JS.index, JS.length. intros Hi.
  destruct (Z.ltb_spec i 0) as [Hneg | Hpos]; [lia |].
  destruct (nth_error arr (Z.to_nat i)) as [x |] eqn:E.
  - now exists x.
  - apply nth_error_None in E. lia.
Qed.

(** X9. Operated through the registered controls only, the instrument keeps
    its three indices inside their tables and its waveform among sine,
    square and triangle; so every live frame has an actual trace and trigger
    line (no read outside a table, no NaN). *)
Theorem panel_events_keep_settings (es : list event) (phase : R) :
  Forall panelEvent es ->
  let s := osc (run es world0) in
  settings_ok s
  /\ exists pts y,
       trace (liveFrame s phase) = Some pts /\ trigY (liveFrame s phase) = Some y.
Proof.
  intros Hes. cbv zeta.
  assert (Hs : settings_ok (osc (run es world0))).
  { apply run_settings_ok; [exact Hes |].
    repeat split; cbn; try lia; try discriminate. tauto. }
  split; [exact Hs |]. destruct Hs as (Ht & Hv & Hr & _).
  apply index_defined in Ht as [tb Et], Hv as [vd Ev], Hr as [tr Er].
  unfold liveFrame. cbn [trace trigY]. rewrite Et, Ev, Er. cbn [option_map].
  eexists _, _. split; reflexivity.
Qed.

Lemma panel_events_keep_settings_witness :
  let s := osc (run [press "timebase" "TIMEBASE" None;
                     AnimationFrame 1%R false true true;
                     XRSelect (Some (Interactive "auto" "AUTO" None))] world0) in
  settings_ok s
  /\ exists pts y,
       trace (liveFrame s 0%R) = Some pts /\ trigY (liveFrame s 0%R) = Some y.
Proof.
  apply (panel_events_keep_settings
           [press "timebase" "TIMEBASE" None;
            AnimationFrame 1%R false true true;
            XRSelect (Some (Interactive "auto" "AUTO" None))] 0%R).
  repeat (apply Forall_cons;
          [ unfold press, panelEvent, panelHit, interactives; cbn [In];
            first [ exact I | repeat (first [left; reflexivity | right]) ] |]).
  apply Forall_nil.
Defined.

(** *** Phase, freeze and resume *)

Lemma handleControl_keeps_phase (k : string) (ex : extra) (w : world) :
  wavePhase (exec (handleControl k ex) w) = wavePhase w.
Proof.
  by_kind k; cbv zeta; try reflexivity;
    repeat match goal with
           | |- context [if ?b then _ else _] => destruct b
           | |- context [match wave ex with _ => _ end] => destruct (wave ex)
           end;
    rewrite ?snapProbeToCH1_eq; reflexivity.
Qed.

Lemma animate_phase (dt : R) (p onPlane near : bool) (w : world) :
  wavePhase (exec (animate dt p onPlane near) w)
  = if power (osc w) && isRunning (osc w) && probeConnected (osc w)
    then (wavePhase w + dt * 4)%R else wavePhase w.
Proof.
  unfold exec. rewrite animate_eq. cbv zeta.
  set (w1 := if power (osc w) && isRunning (osc w) && probeConnected (osc w)
             then _ else w).
  assert (E1 : wavePhase w1
               = if power (osc w) && isRunning (osc w) && probeConnected (osc w)
                 then (wavePhase w + dt * 4)%R else wavePhase w).
  { subst w1. now destruct (power (osc w) && isRunning (osc w)
                            && probeConnected (osc w)). }
  unfold exec. destruct (drawScreen_touches (wavePhase w1) w1) as (d & f & E).
  rewrite E. cbn [final]. set (w2 := World _ _ _ _ _ _ _).
  rewrite <- E1. change (wavePhase w1) with (wavePhase w2).
  destruct p; [reflexivity |].
  destruct (probeGrabbed w2 && negb (probeConnected (osc w2))); [| reflexivity].
  destruct near; [rewrite snapProbeToCH1_eq |]; now destruct onPlane.
Qed.

(** X10. The phase moves only in an animation frame that finds the
    instrument powered, running and connected, and then by four times the
    clock delta; no control, click or select ever changes it. *)
Theorem phase_moves_only_when_live (e : event) (w : world) :
  wavePhase (exec (handle e) w)
  = match e with
    | AnimationFrame dt _ _ _ =>
        if power (osc w) && isRunning (osc w) && probeConnected (osc w)
        then (wavePhase w + dt * 4)%R else wavePhase w
    | _ => wavePhase w
    end.
Proof.
  destruct e as [k ex | p hit | hit | dt p onPlane near]; cbn [handle].
  - apply handleControl_keeps_phase.
  - unfold onClick, exec. destruct p; [reflexivity |].
    destruct hit as [intr |].
    + rewrite playClick_then.
      apply (handleControl_keeps_phase _ _ (emit ClickCue w)).
    + cbn [bind get]. now destruct (probeGrabbed w).
  - unfold onXRSelect, exec. destruct hit as [intr |]; [| reflexivity].
    rewrite playClick_then.
    apply (handleControl_keeps_phase _ _ (emit ClickCue w)).
  - apply animate_phase.
Qed.

Lemma animate_connected (dt : R) (p onPlane near : bool) (w : world) :
  probeConnected (osc w) = true ->
  animate dt p onPlane near w
  = let w1 := if power (osc w) && isRunning (osc w)
              then set_wavePhase (wavePhase w + dt * 4)%R w else w in
    drawScreen (wavePhase w1) w1.
Proof.
  intros Hc. rewrite animate_eq. cbv zeta. rewrite Hc, andb_true_r.
  set (w1 := if power (osc w) && isRunning (osc w) then _ else w).
  assert (E1 : probeConnected (osc w1) = true).
  { subst w1. now destruct (power (osc w) && isRunning (osc w)). }
  unfold exec. destruct (drawScreen_touches (wavePhase w1) w1) as (d & f & E).
  rewrite E. cbn [final osc probeGrabbed]. rewrite E1, andb_false_r.
  now destruct p.
Qed.

Lemma frozen_frame_stays (img : frame) (frames : list (R * bool * bool * bool)) :
  forall w,
    power (osc w) = true -> probeConnected (osc w) = true ->
    isRunning (osc w) = false -> frozenImageData w = Some img ->
    let w' := run (map frameOf frames) w in
    osc w' = osc w /\ frozenImageData w' = Some img
    /\ wavePhase w' = wavePhase w
    /\ screen w' = match frames with [] => screen w | _ => Frozen img end.
Proof.
  induction frames as [| [[[dt p] onPlane] near] rest IH];
    intros w Hp Hc Hr Hf; cbv zeta; cbn [map run frameOf handle].
  - repeat split; assumption.
  - assert (E : exec (animate dt p onPlane near) w = set_screen (Frozen img) w).
    { unfold exec. rewrite animate_connected by exact Hc. cbv zeta.
      rewrite Hp, Hr. cbn [andb]. unfold drawScreen. cbn [bind get].
      rewrite Hp, Hc, Hr, Hf. reflexivity. }
    rewrite E.
    destruct (IH (set_screen (Frozen img) w) Hp Hc Hr Hf) as (E1 & E2 & E3 & E4).
    repeat split; try assumption.
    rewrite E4. now destruct rest.
Qed.

(** X11. Freeze: with the instrument powered, connected and running, a
    frame draws the live sweep at the advanced phase; after RUN/STOP every
    later frame shows exactly that sweep again, the stored image and the
    phase stay put, however many frames follow and whatever their clock
    deltas are. *)
Theorem stop_freezes_last_live_frame
        (w : world) (dt : R) (p onPlane near : bool) (ex : extra)
        (frames : list (R * bool * bool * bool)) :
  power (osc w) = true ->
  probeConnected (osc w) = true ->
  isRunning (osc w) = true ->
  let f := liveFrame (osc w) (wavePhase w + dt * 4)%R in
  let w1 := exec (animate dt p onPlane near) w in
  let w3 := run (map frameOf frames) (exec (handleControl "runstop" ex) w1) in
  screen w1 = Live f
  /\ frozenImageData w3 = Some f
  /\ wavePhase w3 = (wavePhase w + dt * 4)%R
  /\ screen w3 = match frames with [] => Live f | _ => Frozen f end.
Proof.
  intros Hp Hc Hr. cbv zeta.
  assert (E1 : exec (animate dt p onPlane near) w
               = set_frozenImageData
                   (Some (liveFrame (osc w) (wavePhase w + dt * 4)%R))
                   (set_screen (Live (liveFrame (osc w) (wavePhase w + dt * 4)%R))
                      (set_wavePhase (wavePhase w + dt * 4)%R w))).
  { unfold exec. rewrite animate_connected by exact Hc. cbv zeta.
    rewrite Hp, Hr. cbn [andb]. unfold drawScreen. cbn [bind get].
    cbn [osc set_wavePhase wavePhase frozenImageData].
    rewrite Hp, Hc, Hr. reflexivity. }
  rewrite E1. split; [reflexivity |].
  set (w1 := set_frozenImageData _ _).
  unfold exec. rewrite handleControl_runstop. cbv zeta.
  assert (Hr1 : isRunning (osc w1) = true) by exact Hr.
  rewrite Hr1. cbn [negb final].
  set (w2 := bump "runstop" _).
  destruct (frozen_frame_stays
              (liveFrame (osc w) (wavePhase w + dt * 4)%R) frames w2)
    as (_ & E2 & E3 & E4); try assumption; try reflexivity.
  cbv zeta in E2, E3, E4. rewrite E2, E3, E4. repeat split.
Qed.

Lemma stop_freezes_last_live_frame_witness :
  let w := run [Dispatch "power" noExtra; Dispatch "probe_body" noExtra;
                Dispatch "ch1" noExtra] world0 in
  let f := liveFrame (osc w) (wavePhase w + 1 * 4)%R in
  let w1 := exec (animate 1%R false false false) w in
  let w3 := run (map frameOf [(2%R, false, true, true); (3%R, true, false, false)])
                (exec (handleControl "runstop" noExtra) w1) in
  screen w1 = Live f
  /\ frozenImageData w3 = Some f
  /\ wavePhase w3 = (wavePhase w + 1 * 4)%R
  /\ screen w3 = Frozen f.
Proof.
  apply (stop_freezes_last_live_frame
           (run [Dispatch "power" noExtra; Dispatch "probe_body" noExtra;
                 Dispatch "ch1" noExtra] world0)
           1%R false false false noExtra
           [(2%R, false, true, true); (3%R, true, false, false)]);
    reflexivity.
Defined.

(** X12. Resume: pressing RUN/STOP on a stopped, powered and connected
    instrument discards the stored image, and the next frame shows and
    stores a fresh sweep of the current settings at the advanced phase. *)
Theorem resume_draws_fresh_frame
        (w : world) (ex : extra) (dt : R) (p onPlane near : bool) :
  power (osc w) = true ->
  probeConnected (osc w) = true ->
  isRunning (osc w) = false ->
  let w2 := exec (handleControl "runstop" ex) w in
  let w3 := exec (animate dt p onPlane near) w2 in
  let f := liveFrame (osc w) (wavePhase w + dt * 4)%R in
  isRunning (osc w2) = true
  /\ frozenImageData w2 = None
  /\ screen w3 = Live f
  /\ frozenImageData w3 = Some f
  /\ wavePhase w3 = (wavePhase w + dt * 4)%R.
Proof.
  intros Hp Hc Hr. cbv zeta.
  assert (E2 : exec (handleControl "runstop" ex) w
               = bump "runstop"
                   (emit (Toast "Running...")
                      (set_frozenImageData None
                         (set_osc (set_isRunning true (osc w)) w)))).
  { unfold exec. rewrite handleControl_runstop. cbv zeta. now rewrite Hr. }
  rewrite E2. set (w2 := bump "runstop" _).
  assert (Hp2 : power (osc w2) = true) by exact Hp.
  assert (Hc2 : probeConnected (osc w2) = true) by exact Hc.
  assert (Hr2 : isRunning (osc w2) = true) by reflexivity.
  assert (Hf2 : frozenImageData w2 = None) by reflexivity.
  split; [exact Hr2 |]. split; [exact Hf2 |].
  unfold exec. rewrite animate_connected by exact Hc2. cbv zeta.
  rewrite Hp2, Hr2. cbn [andb]. unfold drawScreen. cbn [bind get].
  cbn [osc set_wavePhase wavePhase frozenImageData].
  rewrite Hp2, Hc2, Hr2. cbn [negb modify bind final].
  repeat split.
Qed.

Lemma resume_draws_fresh_frame_witness :
  let w := stoppedBeforeFirstFrame in
  let w2 := exec (handleControl "runstop" noExtra) w in
  let w3 := exec (animate 1%R false false false) w2 in
  let f := liveFrame (osc w) (wavePhase w + 1 * 4)%R in
  isRunning (osc w2) = true
  /\ frozenImageData w2 = None
  /\ screen w3 = Live f
  /\ frozenImageData w3 = Some f
  /\ wavePhase w3 = (wavePhase w + 1 * 4)%R.
Proof.
  apply (resume_draws_fresh_frame stoppedBeforeFirstFrame noExtra
                                  1%R false false false); reflexivity.
Defined.

(** *** The drawn trace *)

Lemma sample_norm_bounds (wf : option string) (t : R) :
  (-1 <= sample_norm wf t <= 1)%R.
Proof.
  assert (Htri : (-1 <= 2 / PI * asin (sin t) <= 1)%R).
  { pose proof (asin_bound (sin t)) as [Hlo Hhi]. pose proof PI_RGT_0 as Hpi.
    assert (Hk : (0 < / PI)%R) by now apply Rinv_0_lt_compat.
    assert (Hone : (/ PI * PI = 1)%R) by (apply Rinv_l; lra).
    unfold Rdiv. split; nra. }
  unfold sample_norm. destruct wf as [w |]; [| exact Htri].
  destruct (String.eqb w "sine"); [apply SIN_bound |].
  destruct (String.eqb w "square"); [| exact Htri].
  unfold JS.sign. destruct (Rlt_dec 0 (sin t)); [lra |].
  destruct (Rlt_dec (sin t) 0); lra.
Qed.

Lemma VDIV_positive (i : Z) (vdiv : number) :
  JS.index VDIV_VALUES i = Some vdiv -> (0 < Q2R (value vdiv))%R.
Proof.
  intros H. pose proof (index_Some_range _ _ _ H) as Hi.
  change (JS.length VDIV_VALUES) with 6 in Hi.
  assert (Hc : i = 0 \/ i = 1 \/ i = 2 \/ i = 3 \/ i = 4 \/ i = 5) by lia.
  repeat (destruct Hc as [-> | Hc]); try subst i;
    cbn in H; injection H as <-; unfold Q2R; cbn; lra.
Qed.

(** X13. In a live frame with valid timebase and V/div indices and a
    non-negative amplitude, the trace has 513 points, one per column
    0..512, and each lies within [ampScale] pixels of the horizontal centre
    line, whatever the waveform value and the phase. *)
Theorem live_trace_stays_in_band
        (s : oscState) (phase : R) (timebase vdiv : number) :
  JS.index TIMEBASE_VALUES (timebaseIdx s) = Some timebase ->
  JS.index VDIV_VALUES (vdivIdx s) = Some vdiv ->
  (0 <= amplitude s)%Q ->
  let A := ampScale (Q2R (value vdiv)) (Q2R (amplitude s)) in
  exists pts,
    trace (liveFrame s phase) = Some pts
    /\ map fst pts = pixels
    /\ Forall (fun pt => (IZR SCREEN_H / 2 - A <= snd pt <= IZR SCREEN_H / 2 + A)%R)
              pts.
Proof.
  intros Htb Hvd Hamp. cbv zeta.
  unfold liveFrame. cbn [trace]. rewrite Htb, Hvd.
  eexists. split; [reflexivity |]. split.
  - unfold trace_points, trace_norms. rewrite !map_map. cbn [fst].
    apply map_id.
  - assert (HA : (0 <= ampScale (Q2R (value vdiv)) (Q2R (amplitude s)))%R).
    { pose proof (VDIV_positive _ _ Hvd) as Hv.
      apply Qreals.Qle_Rle in Hamp. rewrite RMicromega.Q2R_0 in Hamp.
      unfold ampScale, SCREEN_H. cbv zeta.
      apply Rmult_le_pos; [lra |].
      apply Rmult_le_pos; [exact Hamp |].
      apply Rlt_le, Rinv_0_lt_compat. lra. }
    unfold trace_points, trace_norms. rewrite map_map.
    apply Forall_forall. intros pt Hin.
    apply in_map_iff in Hin as (px & <- & _). cbn [fst snd].
    pose proof (sample_norm_bounds (waveform s)
                  (sample_t (Q2R (value timebase)) (Q2R (frequency s)) phase px))
      as [Hlo Hhi].
    split; nra.
Qed.

Lemma live_trace_stays_in_band_witness :
  let A := ampScale (Q2R (value (Num "1" 1))) (Q2R (amplitude oscState0)) in
  exists pts,
    trace (liveFrame oscState0 0%R) = Some pts
    /\ map fst pts = pixels
    /\ Forall (fun pt => (IZR SCREEN_H / 2 - A <= snd pt <= IZR SCREEN_H / 2 + A)%R)
              pts.
Proof.
  apply (live_trace_stays_in_band oscState0 0%R (Num "1" 1) (Num "1" 1));
    [reflexivity | reflexivity | discriminate].
Defined.




(** X15. With a valid trigger index [i] the trigger line is drawn at height
    [280 - 40 i]: 40 pixels (one division) higher per step, from 280 at the
    first table entry to 40 at the last, always on the screen. *)
Theorem trigger_line_on_screen (s : oscState) (phase : R) :
  0 <= triggerIdx s < JS.length TRIGGER_VALUES ->
  exists y,
    trigY (liveFrame s phase) = Some y
    /\ y = (280 - 40 * IZR (triggerIdx s))%R
    /\ (0 <= y <= IZR SCREEN_H)%R.
Proof.
  intros Hi. change (JS.length TRIGGER_VALUES) with 7 in Hi.
  unfold liveFrame. cbn [trigY].
  assert (Hc : triggerIdx s = 0 \/ triggerIdx s = 1 \/ triggerIdx s = 2
               \/ triggerIdx s = 3 \/ triggerIdx s = 4 \/ triggerIdx s = 5
               \/ triggerIdx s = 6) by lia.
  repeat (destruct Hc as [-> | Hc]); try rewrite Hc;
    cbn [JS.index Z.ltb Z.compare Z.to_nat Pos.to_nat Pos.iter_op Nat.add
         nth_error TRIGGER_VALUES option_map value];
    eexists; (split; [reflexivity |]);
    unfold trigger_y, SCREEN_H, Q2R; cbn; split; lra.
Qed.

Lemma trigger_line_on_screen_witness :
  exists y,
    trigY (liveFrame oscState0 0%R) = Some y
    /\ y = (280 - 40 * IZR (triggerIdx oscState0))%R
    /\ (0 <= y <= IZR SCREEN_H)%R.
Proof.
  apply (trigger_line_on_screen oscState0 0%R).
  vm_compute. split; [discriminate | reflexivity].
Defined.

(** *** Feedback, strangers, errors *)



(** X17. A control kind the dispatcher does not know is ignored: the state
    is unchanged, no toast is shown and nothing is thrown. *)
Theorem unknown_control_is_ignored (k : string) (ex : extra) (w : world) :
  ~ In k knownKinds -> handleControl k ex w = Done tt w.
Proof. apply handleControl_other. Qed.

Lemma unknown_control_is_ignored_witness :
  handleControl "zoom" noExtra world0 = Done tt world0.
Proof.
  apply (unknown_control_is_ignored "zoom" noExtra world0).
  cbn. intros H. repeat (destruct H as [H | H]; [discriminate H |]). exact H.
Defined.

(** X18. A WAVE dispatch that carries no waveform throws after having
    stored [undefined] as the waveform: no toast, no tutorial advance, and
    from then on the trace is drawn with the triangle shape. *)
Theorem wave_without_waveform (ex : extra) (w : world) :
  wave ex = None ->
  handleControl "wave" ex w = Thrown (set_osc (set_waveform None (osc w)) w)
  /\ forall t,
       sample_norm (waveform (osc (exec (handleControl "wave" ex) w))) t
       = spec_shape Triangle t.
Proof.
  intros Hw. unfold exec. rewrite handleControl_wave, Hw. split; reflexivity.
Qed.

Lemma wave_without_waveform_witness :
  handleControl "wave" noExtra world0
  = Thrown (set_osc (set_waveform None (osc world0)) world0)
  /\ forall t,
       sample_norm (waveform (osc (exec (handleControl "wave" noExtra) world0))) t
       = spec_shape Triangle t.
Proof.
  apply (wave_without_waveform noExtra world0). reflexivity.
Defined.


(** X20. Pressing POWER twice restores the power flag; pressing RUN/STOP
    twice restores the run state, and after the two presses no frozen image
    is stored any more, whichever state the instrument started in. *)
Theorem toggles_undo_themselves (ex1 ex2 : extra) (w : world) :
  power (osc (run [Dispatch "power" ex1; Dispatch "power" ex2] w))
  = power (osc w)
  /\ isRunning (osc (run [Dispatch "runstop" ex1; Dispatch "runstop" ex2] w))
     = isRunning (osc w)
  /\ frozenImageData (run [Dispatch "runstop" ex1; Dispatch "runstop" ex2] w)
     = None.
Proof.
  cbn [run handle]. unfold exec.
  rewrite !handleControl_power, !handleControl_runstop. cbv zeta.
  flags w. cbn -[bumped]. destruct pw, ir; repeat split.
Qed.

(* ------------------------------------------------------------------------- *)
(** ** Toast countdown *)





(* ------------------------------------------------------------------------- *)
(** ** Ray-cast resolution *)

Lemma findInteractive_sound (regs : list registration) (hit : object3d)
      (d : interactive) :
  findInteractive regs hit = Some d ->
  exists r, In r regs /\ descriptor r = d /\ meshMatches r hit = true.
Proof.
  induction regs as [| r rest IH]; cbn [findInteractive]; [discriminate |].
  destruct (meshMatches r hit) eqn:E.
  - intros [= <-]. exists r. repeat split; [now left | exact E].
  - intros H. destruct (IH H) as (r' & Hin & Hd & Hm).
    exists r'. repeat split; [now right | exact Hd | exact Hm].
Qed.

Lemma findInteractive_none (regs : list registration) (hit : object3d) :
  findInteractive regs hit = None <->
  forall r, In r regs -> meshMatches r hit = false.
Proof.
  induction regs as [| r rest IH]; cbn [findInteractive].
  - split; [intros _ r [] | reflexivity].
  - destruct (meshMatches r hit) eqn:E.
    + split; [discriminate |]. intros H. specialize (H r (or_introl eq_refl)).
      congruence.
    + rewrite IH. split.
      * intros H r' [<- | Hin]; [exact E | now apply H].
      * intros H r' Hin. apply H. now right.
Qed.

(** X22. Whatever [fireRayOnMeshes] returns comes from the nearest hit
    only: it is the descriptor of a registration whose mesh is that object
    or its parent, or else, when no registration matches, the object's own
    tag with a non-empty control kind.  Farther hits never matter. *)
Theorem fireRayOnMeshes_resolves_nearest
        (regs : list registration) (hits : list object3d) (d : interactive) :
  fireRayOnMeshes regs hits = Some d ->
  exists hit rest,
    hits = hit :: rest
    /\ fireRayOnMeshes regs [hit] = Some d
    /\ ((exists r, In r regs /\ descriptor r = d /\ meshMatches r hit = true)
        \/ ((forall r, In r regs -> meshMatches r hit = false)
            /\ userData hit = Some d /\ ctrlType d <> "")).
Proof.
  destruct hits as [| hit rest]; cbn [fireRayOnMeshes]; [discriminate |].
  intros H. exists hit, rest. split; [reflexivity |]. split; [exact H |].
  destruct (findInteractive regs hit) as [d' |] eqn:E.
  - injection H as <-. left. now apply findInteractive_sound.
  - right. split; [now apply findInteractive_none |].
    destruct (userData hit) as [tag |]; [| discriminate].
    destruct (String.eqb_spec (ctrlType tag) ""); cbn [negb] in H;
      [discriminate |].
    injection H as <-. split; [reflexivity | assumption].
Qed.

Lemma fireRayOnMeshes_resolves_nearest_witness :
  exists hit rest,
    [Object3d 7 (Some 1%nat) None; Object3d 2 None None] = hit :: rest
    /\ fireRayOnMeshes [Registration 1 (Interactive "timebase" "TIMEBASE" None)]
                       [hit]
       = Some (Interactive "timebase" "TIMEBASE" None)
    /\ ((exists r,
            In r [Registration 1 (Interactive "timebase" "TIMEBASE" None)]
            /\ descriptor r = Interactive "timebase" "TIMEBASE" None
            /\ meshMatches r hit = true)
        \/ ((forall r,
                In r [Registration 1 (Interactive "timebase" "TIMEBASE" None)] ->
                meshMatches r hit = false)
            /\ userData hit = Some (Interactive "timebase" "TIMEBASE" None)
            /\ ctrlType (Interactive "timebase" "TIMEBASE" None) <> "")).
Proof.
  apply (fireRayOnMeshes_resolves_nearest
           [Registration 1 (Interactive "timebase" "TIMEBASE" None)]
           [Object3d 7 (Some 1%nat) None; Object3d 2 None None]
           (Interactive "timebase" "TIMEBASE" None)).
  reflexivity.
Defined.

(** X23. A nearest hit on a registered mesh, or on a direct child of one,
    always resolves to a control: when exactly one registration matches the
    object, its descriptor is returned, whatever lies behind. *)
Theorem fireRayOnMeshes_finds_registered
        (regs : list registration) (r : registration)
        (hit : object3d) (rest : list object3d) :
  In r regs ->
  meshMatches r hit = true ->
  (forall r', In r' regs -> meshMatches r' hit = true -> r' = r) ->
  fireRayOnMeshes regs (hit :: rest) = Some (descriptor r).
Proof.
  intros Hin Hm Huniq. cbn [fireRayOnMeshes].
  destruct (findInteractive regs hit) as [d |] eqn:E.
  - apply findInteractive_sound in E as (r' & Hin' & <- & Hm').
    now rewrite (Huniq r' Hin' Hm').
  - rewrite findInteractive_none in E. rewrite (E r Hin) in Hm. discriminate.
Qed.

Lemma fireRayOnMeshes_finds_registered_witness :
  fireRayOnMeshes
    [Registration 1 (Interactive "power" "POWER" None);
     Registration 2 (Interactive "auto" "AUTO" None)]
    [Object3d 9 (Some 2%nat) None; Object3d 1 None None]
  = Some (descriptor (Registration 2 (Interactive "auto" "AUTO" None))).
Proof.
  apply (fireRayOnMeshes_finds_registered
           [Registration 1 (Interactive "power" "POWER" None);
            Registration 2 (Interactive "auto" "AUTO" None)]
           (Registration 2 (Interactive "auto" "AUTO" None))
           (Object3d 9 (Some 2%nat) None) [Object3d 1 None None]).
  - cbn. tauto.
  - reflexivity.
  - intros r' [<- | [<- | []]] H; [discriminate H | reflexivity].
Defined.

(** X24. When every registration and every tag in the scene carries a
    descriptor of [interactives], the ray cast returns nothing or such a
    descriptor: what the click and select listeners dispatch is always a
    registered control. *)
Theorem fireRayOnMeshes_gives_panel_hits
        (regs : list registration) (hits : list object3d) :
  (forall r, In r regs -> In (descriptor r) interactives) ->
  (forall h tag, In h hits -> userData h = Some tag -> In tag interactives) ->
  panelHit (fireRayOnMeshes regs hits).
Proof.
  intros Hregs Htags.
  destruct (fireRayOnMeshes regs hits) as [d |] eqn:E; [| exact I].
  cbn [panelHit]. destruct hits as [| hit rest]; [discriminate |].
  cbn [fireRayOnMeshes] in E.
  destruct (findInteractive regs hit) as [d' |] eqn:Ef.
  - injection E as <-.
    apply findInteractive_sound in Ef as (r & Hin & <- & _). now apply Hregs.
  - destruct (userData hit) as [tag |] eqn:Eu; [| discriminate].
    destruct (negb (String.eqb (ctrlType tag) "")); [| discriminate].
    injection E as <-. apply (Htags hit tag); [now left | exact Eu].
Qed.

Lemma fireRayOnMeshes_gives_panel_hits_witness :
  panelHit (fireRayOnMeshes
              [Registration 1 (Interactive "power" "POWER" None)]
              [Object3d 5 None (Some (Interactive "auto" "AUTO" None))]).
Proof.
  apply (fireRayOnMeshes_gives_panel_hits
           [Registration 1 (Interactive "power" "POWER" None)]
           [Object3d 5 None (Some (Interactive "auto" "AUTO" None))]).
  - intros r [<- | []]. cbn. tauto.
  - intros h tag [<- | []] [= <-]. cbn. tauto.
Defined.

(* ------------------------------------------------------------------------- *)
(** ** Step cards and the tutorial ring *)

Lemma reachable_step_range (es : list event) :
  0 <= currentStep (osc (run es world0)) <= 7.
Proof.
  destruct (run_step es world0) as [Hlo Hhi].
  change (currentStep (osc world0)) with 0 in *. lia.
Qed.

Lemma cardsFrom_steps (steps : list step) :
  forall i cur, map cardStep (cardsFrom i steps cur) = steps.
Proof.
  induction steps as [| st rest IH]; intros i cur; cbn; [reflexivity |].
  now rewrite IH.
Qed.

(** X25. At any time the step cards show the eight steps in order and
    exactly one of them is drawn as active: the card of the current step. *)
Theorem one_active_step_card (es : list event) :
  let s := osc (run es world0) in
  map cardStep (refreshStepCards s) = STEPS
  /\ exists st,
       JS.index STEPS (currentStep s) = Some st
       /\ filter isActive (refreshStepCards s) = [makeStepCard st true].
Proof.
  cbv zeta. split; [apply cardsFrom_steps |].
  pose proof (reachable_step_range es) as Hs.
  unfold refreshStepCards.
  set (c := currentStep (osc (run es world0))) in *. clearbody c.
  assert (Hc : c = 0 \/ c = 1 \/ c = 2 \/ c = 3 \/ c = 4 \/ c = 5 \/ c = 6
               \/ c = 7) by lia.
  repeat (destruct Hc as [-> | Hc]); try subst c;
    eexists; split; reflexivity.
Qed.



